(** * names2stats: file names to basic stats, streamed as JSON lines

    A shallow embedding of [names2stats.go] and the properties of its
    sandboxed stat-streaming pipeline.

    Conventions of the embedding:
    - Go's fixed-width integers are values of [Z]; where the source does
      arithmetic on them the wrap-around is written out ([wrap64]).
    - [asn1.Enumerated] is Go's [int]; a [FileType] is a [Z].
    - a Go map is a [gmap]; indexing a missing key gives the zero value.
    - a Go [(T, error)] pair is [T * option Error], [None] being [nil]. *)

From stdpp Require Import gmap strings list.
From Stdlib Require Import ZArith Lia Bool Ascii.

Local Open Scope string_scope.
Local Open Scope list_scope.
Local Open Scope Z_scope.

(** ** File types (names2stats.go, lines 14-57) *)

Module FileTypes.

Definition FileType : Type := Z.

Definition FileTypeUnspecified : FileType := 0.
Definition FileTypeBlck : FileType := 104.
Definition FileTypeChar : FileType := 103.
Definition FileTypeFldr : FileType := 105.
Definition FileTypeRglr : FileType := 100.
Definition FileTypeSyml : FileType := 102.
Definition FileTypePipe : FileType := 106.
Definition FileTypeSock : FileType := 109.

Definition FileTypeToString : Type := FileType -> string.

(** [type FileTypeToStringMap map[FileType]string] *)
Abbreviation FileTypeToStringMap := (gmap Z string) (only parsing).

Definition fileTypeToStringMap : FileTypeToStringMap :=
  list_to_map
    [ (FileTypeUnspecified, "UNKNOWN FILE TYPE");
      (FileTypeBlck, "block special");
      (FileTypeChar, "character special");
      (FileTypeFldr, "directory");
      (FileTypeRglr, "regular file");
      (FileTypeSyml, "symbolic link");
      (FileTypePipe, "FIFO");
      (FileTypeSock, "socket") ].

Definition FileTypeToStringMapDefault : FileTypeToStringMap :=
  fileTypeToStringMap.

(** Go's [m[k]] on a map of strings: the empty string for a missing key. *)
Definition map_index (m : FileTypeToStringMap) (k : FileType) : string :=
  default EmptyString (m !! k).

Definition ToFileTypeToString (m : FileTypeToStringMap) : FileTypeToString :=
  fun typ =>
    match m !! typ with
    | Some val => val
    | None => map_index m FileTypeUnspecified
    end.

Definition FileTypeToStringDefault : FileTypeToString :=
  ToFileTypeToString FileTypeToStringMapDefault.

(** The eight codes of the enumeration, in the order of the [const] block. *)
Definition enumerated : list FileType :=
  [ FileTypeUnspecified; FileTypeBlck; FileTypeChar; FileTypeFldr;
    FileTypeRglr; FileTypeSyml; FileTypePipe; FileTypeSock ].

End FileTypes.
Export FileTypes.

(** ** File modes (names2stats.go, lines 93-141)

    [fs.FileMode] is a [uint32].  The bit constants and the two methods
    [IsDir] and [IsRegular] are those of Go's [io/fs] package. *)

Module Modes.

Definition ModeDir : Z := Z.shiftl 1 31.
Definition ModeSymlink : Z := Z.shiftl 1 27.
Definition ModeDevice : Z := Z.shiftl 1 26.
Definition ModeNamedPipe : Z := Z.shiftl 1 25.
Definition ModeSocket : Z := Z.shiftl 1 24.
Definition ModeCharDevice : Z := Z.shiftl 1 21.
Definition ModeIrregular : Z := Z.shiftl 1 19.

Definition ModeType : Z :=
  Z.lor ModeDir
    (Z.lor ModeSymlink
       (Z.lor ModeNamedPipe
          (Z.lor ModeSocket
             (Z.lor ModeDevice (Z.lor ModeCharDevice ModeIrregular))))).

(** [type FileMode struct{ fs.FileMode }] *)
Record FileMode : Type := mkFileMode { bits : Z }.

(** [fs.FileMode.IsDir] and [fs.FileMode.IsRegular]. *)
Definition fs_IsDir (m : Z) : bool := negb (Z.land m ModeDir =? 0).
Definition fs_IsRegular (m : Z) : bool := Z.land m ModeType =? 0.

Definition IsSymlink (m : FileMode) : bool :=
  negb (0 =? Z.land (bits m) ModeSymlink).

Definition IsNamedPipe (m : FileMode) : bool :=
  negb (0 =? Z.land (bits m) ModeNamedPipe).

Definition IsSocket (m : FileMode) : bool :=
  negb (0 =? Z.land (bits m) ModeSocket).

Definition IsCharDevice (m : FileMode) : bool :=
  negb (0 =? Z.land (bits m) ModeCharDevice).

Definition IsDevice (m : FileMode) : bool :=
  negb (0 =? Z.land (bits m) ModeDevice).

Definition IsBlockDevice (m : FileMode) : bool :=
  let isDevice := IsDevice m in
  let isChar := IsCharDevice m in
  let isNotChar := negb isChar in
  isDevice && isNotChar.

Definition ToFileType (m : FileMode) : FileType :=
  if fs_IsRegular (bits m) then FileTypeRglr
  else if fs_IsDir (bits m) then FileTypeFldr
  else if IsSymlink m then FileTypeSyml
  else if IsNamedPipe m then FileTypePipe
  else if IsSocket m then FileTypeSock
  else if IsCharDevice m then FileTypeChar
  else if IsBlockDevice m then FileTypeBlck
  else FileTypeUnspecified.

(** *** Precedence tables

    A category is a test on the mode bits together with the code it
    yields; a table is read top to bottom and the first test that holds
    decides. *)

Definition Category : Type := (Z -> bool) * FileType.

Fixpoint first_match (table : list Category) (m : Z) : FileType :=
  match table with
  | [] => FileTypeUnspecified
  | (test, code) :: rest => if test m then code else first_match rest m
  end.

Definition bit_dir (m : Z) : bool := Z.testbit m 31.
Definition bit_symlink (m : Z) : bool := Z.testbit m 27.
Definition bit_device (m : Z) : bool := Z.testbit m 26.
Definition bit_pipe (m : Z) : bool := Z.testbit m 25.
Definition bit_socket (m : Z) : bool := Z.testbit m 24.
Definition bit_char (m : Z) : bool := Z.testbit m 21.
Definition bit_irregular (m : Z) : bool := Z.testbit m 19.

(** No type bit at all: a regular file. *)
Definition no_type_bit (m : Z) : bool :=
  negb (bit_dir m || bit_symlink m || bit_pipe m || bit_socket m
        || bit_device m || bit_char m || bit_irregular m).

(** The table as the specification words it: a character device needs
    the device bit and the character bit. *)
Definition precedence_as_specified : list Category :=
  [ (no_type_bit, FileTypeRglr);
    (bit_dir, FileTypeFldr);
    (bit_symlink, FileTypeSyml);
    (bit_pipe, FileTypePipe);
    (bit_socket, FileTypeSock);
    ((fun m => bit_device m && bit_char m), FileTypeChar);
    ((fun m => bit_device m && negb (bit_char m)), FileTypeBlck) ].

(** The table the switch of [ToFileType] follows: the character test
    looks at the character bit alone. *)
Definition precedence : list Category :=
  [ (no_type_bit, FileTypeRglr);
    (bit_dir, FileTypeFldr);
    (bit_symlink, FileTypeSyml);
    (bit_pipe, FileTypePipe);
    (bit_socket, FileTypeSock);
    (bit_char, FileTypeChar);
    ((fun m => bit_device m && negb (bit_char m)), FileTypeBlck) ].

Definition matches_none (table : list Category) (m : Z) : bool :=
  forallb (fun c => negb (fst c m)) table.

End Modes.
Export Modes.

(** ** Time stamps (names2stats.go, lines 59-63)

    [time.Time] is kept as the instant it denotes: whole seconds since
    the Unix epoch and the nanoseconds within that second.  [time_Unix],
    [time_UnixMicro] and [Time_UnixMicro] are the functions of Go's
    [time] package that the source calls; Go's [/] and [%] truncate
    towards zero ([Z.quot], [Z.rem]). *)

Module Times.

Definition wrap64 (z : Z) : Z := (z + 2 ^ 63) mod 2 ^ 64 - 2 ^ 63.

Definition int64_range (z : Z) : Prop := - 2 ^ 63 <= z < 2 ^ 63.

Record Time : Type := mkTime { unixSec : Z; nsec : Z }.

(** [func Unix(sec int64, nsec int64) Time] *)
Definition time_Unix (sec ns : Z) : Time :=
  if (ns <? 0) || (10 ^ 9 <=? ns) then
    let n := Z.quot ns (10 ^ 9) in
    let sec1 := wrap64 (sec + n) in
    let ns1 := wrap64 (ns - wrap64 (n * 10 ^ 9)) in
    if ns1 <? 0 then mkTime (wrap64 (sec1 - 1)) (wrap64 (ns1 + 10 ^ 9))
    else mkTime sec1 ns1
  else mkTime sec ns.

(** [func UnixMicro(usec int64) Time] *)
Definition time_UnixMicro (usec : Z) : Time :=
  time_Unix (Z.quot usec (10 ^ 6)) (wrap64 (Z.rem usec (10 ^ 6) * 10 ^ 3)).

(** [func (t Time) UnixMicro() int64] *)
Definition Time_UnixMicro (t : Time) : Z :=
  wrap64 (wrap64 (unixSec t * 10 ^ 6) + Z.quot (nsec t) (10 ^ 3)).

(** [type UnixtimeUs int64] *)
Definition UnixtimeUs : Type := Z.

Definition ToTime (u : UnixtimeUs) : Time := time_UnixMicro u.

End Times.
Export Times.

(** ** Records (names2stats.go, lines 65-91 and 143-152) *)

Module Stats.

Record BasicStatJson : Type := mkBasicStatJson {
  json_Path : string;
  json_Size : Z;
  json_Modified : Time;
  json_FileType : string
}.

Record BasicStat : Type := mkBasicStat {
  Path : string;
  Size : Z;
  Modified : UnixtimeUs;
  fileType : FileType
}.

(** [var empty BasicStat]: every field at its zero value. *)
Definition empty : BasicStat := mkBasicStat EmptyString 0 0 FileTypeUnspecified.

Definition ToJsonObj (b : BasicStat) (t2s : FileTypeToString) : BasicStatJson :=
  {| json_Path := Path b;
     json_Size := Size b;
     json_Modified := ToTime (Modified b);
     json_FileType := t2s (fileType b) |}.

Definition WithFullPath (b : BasicStat) (f : string) : BasicStat :=
  {| Path := f;
     Size := Size b;
     Modified := Modified b;
     fileType := fileType b |}.





(** The part of [fs.FileInfo] the source reads: [Size()], [ModTime()]
    and [Mode()]. *)
Record FileInfo : Type := mkFileInfo {
  info_Size : Z;
  info_ModTime : Time;
  info_Mode : Z
}.

Definition ToBasicStat (i : FileInfo) : BasicStat :=
  {| Path := EmptyString;
     Size := info_Size i;
     Modified := Time_UnixMicro (info_ModTime i);
     fileType := ToFileType (mkFileMode (info_Mode i)) |}.

End Stats.
Export Stats.

(** ** Errors *)

Module Errors.

(** Modelled from the spec: the kinds of Go [error] values, which the
    source passes through without inspecting them and whose declarations
    are outside the sources; the kinds are the ones section 7 of the
    specification enumerates. *)
Inductive Error : Type :=
| ConfigMissing
| RootUnavailable
| PathEscapesRoot
| NameNotFound
| StatUnavailable
| EncodeFailure.

End Errors.
Export Errors.

(** ** The sandbox root of the standard library

    [os.Root], [os.OpenRoot] and [os.Root.Stat] belong to Go's
    standard library; the source only calls them.  They are modelled
    over a tree-shaped file system with directories, files and symbolic
    links. *)

Module OsRoot.

#[warnings="-register-all"]
Inductive Node : Type :=
| NFile (fi : FileInfo)
| NDir (fi : FileInfo) (entries : list (string * Node))
| NSymlink (target : string).

Fixpoint entry (name : string) (entries : list (string * Node)) : option Node :=
  match entries with
  | [] => None
  | (n, node) :: rest => if String.eqb n name then Some node else entry name rest
  end.

(** The node at a path given as its components, from [top] downwards. *)
Fixpoint lookup_node (top : Node) (path : list string) : option Node :=
  match path with
  | [] => Some top
  | c :: rest =>
      match top with
      | NDir _ entries =>
          match entry c entries with
          | Some child => lookup_node child rest
          | None => None
          end
      | _ => None
      end
  end.

(** Splitting a name at its slashes; empty components and ["."] are
    dropped, [".."] is kept. *)
Fixpoint split_slash (acc : string) (s : string) : list string :=
  match s with
  | EmptyString => [acc]
  | String c rest =>
      if Ascii.eqb c "/"%char then acc :: split_slash EmptyString rest
      else split_slash (acc +:+ String c EmptyString) rest
  end.

Definition is_component (c : string) : bool :=
  negb (String.eqb c EmptyString) && negb (String.eqb c ".").

Definition components (s : string) : list string :=
  List.filter is_component (split_slash EmptyString s).

Definition is_absolute (s : string) : bool :=
  match s with
  | String c _ => Ascii.eqb c "/"%char
  | EmptyString => false
  end.

Definition is_prefix (p l : list string) : bool :=
  bool_decide (take (length p) l = p).

(** *** Resolution without a sandbox *)

(** Modelled from the spec: what resolution "would" do without the
    sandbox, which no source file spells out.  [cur] is the directory
    reached so far (absolute, innermost component first), [rest] the
    components still to walk.  [leaves_root] answers whether the walk,
    started inside the directory [rootp], reaches a directory that is
    not below [rootp] within [steps] steps. *)
Fixpoint leaves_root (steps : nat) (disk : Node) (rootp : list string)
    (cur rest : list string) : bool :=
  if negb (is_prefix rootp (rev cur)) then true
  else
    match steps with
    | O => false
    | S steps' =>
        match rest with
        | [] => false
        | c :: rest' =>
            if String.eqb c ".." then
              leaves_root steps' disk rootp (tail cur) rest'
            else
              match lookup_node disk (rev (c :: cur)) with
              | Some (NDir _ _) =>
                  leaves_root steps' disk rootp (c :: cur) rest'
              | Some (NSymlink target) =>
                  leaves_root steps' disk rootp
                    (if is_absolute target then [] else cur)
                    (components target ++ rest')
              | _ => false
              end
        end
    end.

(** Modelled from the spec: a name would escape the root when its
    unsandboxed resolution, started at the root directory (or at [/]
    for an absolute name), leaves the root. *)
Definition would_escape (steps : nat) (disk : Node) (rootp : list string)
    (name : string) : bool :=
  leaves_root steps disk rootp
    (if is_absolute name then [] else rev rootp) (components name).

(** *** Resolution inside the sandbox *)

(** Modelled from the spec: [os.Root.Stat] is missing from the
    sources.  It resolves [name] relative to the root, follows symbolic
    links, and rejects resolution that would escape the root (a [..]
    segment at the root, an absolute target) with [PathEscapesRoot];
    a missing entry is [NameNotFound], any other failure
    [StatUnavailable].  [here] is the directory reached so far, relative
    to the root, innermost component first. *)
Fixpoint stat_in_root (steps : nat) (root : Node) (here rest : list string)
    : FileInfo + Error :=
  match steps with
  | O => inr StatUnavailable
  | S steps' =>
      match rest with
      | [] =>
          match lookup_node root (rev here) with
          | Some (NFile fi) => inl fi
          | Some (NDir fi _) => inl fi
          | _ => inr NameNotFound
          end
      | c :: rest' =>
          if String.eqb c ".." then
            match here with
            | [] => inr PathEscapesRoot
            | _ :: up => stat_in_root steps' root up rest'
            end
          else
            match lookup_node root (rev (c :: here)) with
            | None => inr NameNotFound
            | Some (NFile fi) =>
                match rest' with
                | [] => inl fi
                | _ :: _ => inr StatUnavailable
                end
            | Some (NDir _ _) => stat_in_root steps' root (c :: here) rest'
            | Some (NSymlink target) =>
                if is_absolute target then inr PathEscapesRoot
                else stat_in_root steps' root here (components target ++ rest')
            end
      end
  end.

(** An open root, seen through the one method the source calls on it. *)
Record os_Root : Type := mkOsRoot { os_Root_Stat : string -> FileInfo + Error }.

(** Modelled from the spec: [os.Root.Stat] on a name as the caller
    spells it; an absolute name is outside every root. *)
Definition sandbox_Stat (steps : nat) (root : Node) (name : string)
    : FileInfo + Error :=
  if is_absolute name then inr PathEscapesRoot
  else stat_in_root steps root [] (components name).

(** Modelled from the spec: [os.OpenRoot] is missing from the sources.
    It opens the directory at [rootp] and fails with [RootUnavailable]
    when there is none; [steps] bounds the resolution steps the root
    allows per name. *)
Definition os_OpenRoot (steps : nat) (disk : Node) (rootp : list string)
    : os_Root + Error :=
  match lookup_node disk rootp with
  | Some (NDir fi entries) =>
      inl (mkOsRoot (sandbox_Stat steps (NDir fi entries)))
  | _ => inr RootUnavailable
  end.

End OsRoot.
Export OsRoot.

(** ** The root of the repository (names2stats.go, lines 154-189) *)

Module Roots.

(** [type FilenameToBasicStat func(string) (BasicStat, error)] *)
Definition FilenameToBasicStat : Type := string -> BasicStat * option Error.

(** [type Root struct{ *os.Root }] *)
Record Root : Type := mkRoot { osRoot : os_Root }.

Definition NameToInfo (r : Root) (fullpath : string) : FileInfo + Error :=
  os_Root_Stat (osRoot r) fullpath.

Definition NameToBasicStat (r : Root) (fullpath : string)
    : BasicStat * option Error :=
  match NameToInfo r fullpath with
  | inr e => (empty, Some e)
  | inl fi => (WithFullPath (ToBasicStat fi) fullpath, None)
  end.

Definition ToFilenameToBasicStat (r : Root) : FilenameToBasicStat :=
  NameToBasicStat r.

(** [type RootDirname string] and its [ToRoot]; the directory name is
    read from the top of the disk. *)
Definition ToRoot (steps : nat) (disk : Node) (d : string) : os_Root + Error :=
  os_OpenRoot steps disk (components d).

End Roots.
Export Roots.

(** ** Iterators and the streaming pipeline (names2stats.go, lines 202-287)

    A run threads a [World] (what it reads and writes) and the local
    variables of the function whose loop is running.  An [iter.Seq] is a
    function of its [yield]; a [for ... range] loop over it is the call
    of the sequence with the loop body as [yield], the body answering
    [false] where the source leaves the loop. *)

Module Pipeline.

(** [pulled]: the names the name source has handed out; [resolved]: the
    names the resolver has been asked about; [written]: the lines that
    have reached the writer; each oldest first.  The disk does not
    change during a run, so a resolver is a function of the name. *)
Record World : Type := mkWorld {
  pulled : list string;
  resolved : list string;
  written : list BasicStatJson
}.

Definition M (L A : Type) : Type := L * World -> A * (L * World).

Definition ret {L A : Type} (a : A) : M L A := fun s => (a, s).

Definition bind {L A B : Type} (m : M L A) (k : A -> M L B) : M L B :=
  fun s => let (a, s') := m s in k a s'.

Notation "x <- m ;; k" := (bind m (fun x => k))
  (at level 100, m at next level, right associativity).
Notation "m ;;; k" := (bind m (fun _ => k))
  (at level 100, right associativity).

Definition get_local {L : Type} : M L L := fun s => (fst s, s).

Definition set_local {L : Type} (l : L) : M L unit := fun s => (tt, (l, snd s)).

(** The name source hands out a name. *)
Definition note_pulled {L : Type} (name : string) : M L unit :=
  fun s =>
    let w := snd s in
    (tt, (fst s, mkWorld (pulled w ++ [name]) (resolved w) (written w))).

(** The resolver is asked about a name. *)
Definition note_resolved {L : Type} (name : string) : M L unit :=
  fun s =>
    let w := snd s in
    (tt, (fst s, mkWorld (pulled w) (resolved w ++ [name]) (written w))).

Definition Seq (V : Type) : Type := forall L : Type, (V -> M L bool) -> M L unit.

Definition Seq2 (K V : Type) : Type :=
  forall L : Type, (K -> V -> M L bool) -> M L unit.

(** [ReaderToNames]: the reader is the list of its lines, which
    [bufio.Scanner] hands out one [Scan] at a time. *)
Fixpoint ReaderToNames (rdr : list string) : Seq string :=
  fun L yield =>
    match rdr with
    | [] => ret tt
    | fullpath :: rest =>
        note_pulled fullpath ;;;
        continue <- yield fullpath ;;
        if continue then ReaderToNames rest L yield else ret tt
    end.

Definition NamesToBasicStats (i : FilenameToBasicStat) (names : Seq string)
    : Seq2 BasicStat (option Error) :=
  fun L yield =>
    names L (fun name =>
      note_resolved name ;;;
      let (s, e) := i name in
      yield s e).

(** [BasicStatIter.Collect]: the local variables are the slice [ret] and
    the error the loop returned with, if it did. *)
Record CollectLocals : Type := mkCollectLocals {
  collected : list BasicStat;
  collect_error : option Error
}.

Definition collect_body (s : BasicStat) (e : option Error)
    : M CollectLocals bool :=
  l <- get_local ;;
  match e with
  | Some err => set_local (mkCollectLocals (collected l) (Some err)) ;;; ret false
  | None => set_local (mkCollectLocals (collected l ++ [s]) None) ;;; ret true
  end.

Definition Collect (i : Seq2 BasicStat (option Error)) (w : World)
    : (list BasicStat * option Error) * World :=
  let '(_, (l, w')) :=
    i CollectLocals collect_body (mkCollectLocals [] None, w) in
  match collect_error l with
  | Some err => (([], Some err), w')
  | None => ((collected l, None), w')
  end.

Section Encoder.

(** [json.Encoder.Encode] is the standard library's: whether an object
    marshals is a parameter ([None] when it does). *)
Variable json_Marshal : BasicStatJson -> option Error.

(** The local variables of the function [BasicStatsToWriter] returns:
    the content of the [bufio.Writer] and the error the loop returned
    with, if it did. *)
Record WriterLocals : Type := mkWriterLocals {
  bw : list BasicStatJson;
  returned : option Error
}.

(** [enc.Encode(j)]: a marshalled object goes to the buffered writer as
    one line. *)
Definition Encode (j : BasicStatJson) : M WriterLocals (option Error) :=
  match json_Marshal j with
  | Some err => ret (Some err)
  | None =>
      l <- get_local ;;
      set_local (mkWriterLocals (bw l ++ [j]) (returned l)) ;;;
      ret None
  end.

(** [bw.Flush()]: the buffered lines reach the writer. *)
Definition Flush (l : WriterLocals) (w : World) : World :=
  mkWorld (pulled w) (resolved w) (written w ++ bw l).

Definition write_body (c : FileTypeToString) (s : BasicStat) (e : option Error)
    : M WriterLocals bool :=
  match e with
  | Some err =>
      l <- get_local ;;
      set_local (mkWriterLocals (bw l) (Some err)) ;;;
      ret false
  | None =>
      let j := ToJsonObj s c in
      e' <- Encode j ;;
      match e' with
      | Some err =>
          l <- get_local ;;
          set_local (mkWriterLocals (bw l) (Some err)) ;;;
          ret false
      | None => ret true
      end
  end.

(** [BasicStatsToWriter]; the writer is [written] of the world, and the
    deferred [Flush] runs on every way out. *)
Definition BasicStatsToWriter (c : FileTypeToString)
    (stats : Seq2 BasicStat (option Error)) (w : World) : option Error * World :=
  let '(_, (l, w')) := stats WriterLocals (write_body c) (mkWriterLocals [] None, w) in
  (returned l, Flush l w').

Definition BasicStatsToStdout (c : FileTypeToString)
    (stats : Seq2 BasicStat (option Error)) (w : World) : option Error * World :=
  BasicStatsToWriter c stats w.

Definition BasicStatsToStdoutDefault
    (stats : Seq2 BasicStat (option Error)) (w : World) : option Error * World :=
  BasicStatsToStdout FileTypeToStringDefault stats w.

(** [FilenameToBasicStat.NamesToBasicStatsToStdout] *)
Definition NamesToBasicStatsToStdout (i : FilenameToBasicStat)
    (names : Seq string) (w : World) : option Error * World :=
  let stats := NamesToBasicStats i names in
  BasicStatsToStdoutDefault stats w.

(** [Root.NamesToBasicStatsToStdout] *)
Definition Root_NamesToBasicStatsToStdout (r : Root)
    (names : Seq string) (w : World) : option Error * World :=
  NamesToBasicStatsToStdout (ToFilenameToBasicStat r) names w.

(** The run told without iterators, for comparison: names are taken in
    order; the first name whose result carries an error, or whose object
    does not marshal, ends the run with that error.  The value is the
    names taken, the lines written and the error. *)
Fixpoint fail_fast_run (c : FileTypeToString) (i : FilenameToBasicStat)
    (names : list string) : list string * list BasicStatJson * option Error :=
  match names with
  | [] => ([], [], None)
  | name :: rest =>
      match snd (i name) with
      | Some err => ([name], [], Some err)
      | None =>
          let j := ToJsonObj (fst (i name)) c in
          match json_Marshal j with
          | Some err => ([name], [], Some err)
          | None =>
              let '(taken, lines, e) := fail_fast_run c i rest in
              (name :: taken, j :: lines, e)
          end
      end
  end.

End Encoder.

(** A consumer that takes every result and never stops: the results it
    was handed, oldest first, are its local variable. *)
Definition take_all (s : BasicStat) (e : option Error)
    : M (list (BasicStat * option Error)) bool :=
  l <- get_local ;;
  set_local (l ++ [(s, e)])%list ;;;
  ret true.

Definition consume_all (stats : Seq2 BasicStat (option Error)) (w : World)
    : list (BasicStat * option Error) * World :=
  snd (stats _ take_all ([], w)).

Definition world0 : World := mkWorld [] [] [].

End Pipeline.
Export Pipeline.

(** ** A small disk for the worked examples

    [/jail] is the sandbox root; [/secret] lies outside it. *)

Module Examples.

Definition file_info : FileInfo :=
  mkFileInfo 5 (mkTime 1700000000 123456789) 420.

Definition dir_info : FileInfo :=
  mkFileInfo 4096 (mkTime 1700000000 0) (Z.lor ModeDir 493).

Definition disk : Node :=
  NDir dir_info
    [ ("jail",
       NDir dir_info
         [ ("a.txt", NFile file_info);
           ("sub", NDir dir_info [("b.txt", NFile file_info)]);
           ("out", NSymlink "../secret");
           ("abs", NSymlink "/secret");
           ("in", NSymlink "sub/b.txt") ]);
      ("secret", NFile file_info) ].

Definition jail_tree : Node :=
  NDir dir_info
    [ ("a.txt", NFile file_info);
      ("sub", NDir dir_info [("b.txt", NFile file_info)]);
      ("out", NSymlink "../secret");
      ("abs", NSymlink "/secret");
      ("in", NSymlink "sub/b.txt") ].

Definition jail : Root := mkRoot (mkOsRoot (sandbox_Stat 16 jail_tree)).

(** An encoder for which every object marshals. *)
Definition marshal_all : BasicStatJson -> option Error := fun _ => None.

End Examples.

(** ** Watching a consumer

    A consumer under observation: at each of its turns the names pulled
    and the names resolved so far are noted, oldest turn first, before
    the consumer itself runs. *)

Module Watch.

Definition Sighting : Type := (list string * list string)%type.

Definition observed {L : Type} (yield : BasicStat -> option Error -> M L bool)
    (s : BasicStat) (e : option Error) : M (L * list Sighting) bool :=
  fun st =>
    let '((l, seen), w) := st in
    let '(continue, (l', w')) := yield s e (l, w) in
    (continue, ((l', seen ++ [(pulled w, resolved w)]), w')).

(** A consumer is quiet when it does not itself pull or resolve names. *)
Definition quiet {L : Type} (yield : BasicStat -> option Error -> M L bool)
    : Prop :=
  forall s e st,
    pulled (snd (snd (yield s e st))) = pulled (snd st)
    /\ resolved (snd (snd (yield s e st))) = resolved (snd st).

End Watch.
Export Watch.

(** ** More worked examples *)

Module MoreExamples.

(** An encoder that refuses time stamps outside the years 0 to 9999
    (in UTC), as [Time.MarshalJSON] does. *)
Definition marshal_years : BasicStatJson -> option Error :=
  fun j =>
    if (- 62167219200 <=? unixSec (json_Modified j))
       && (unixSec (json_Modified j) <? 253402300800)
    then None else Some EncodeFailure.

(** A file last modified in the year 12000. *)
Definition late_info : FileInfo :=
  mkFileInfo 7 (mkTime 316516000000 0) 420.

Definition archive_tree : Node :=
  NDir Examples.dir_info
    [ ("old.txt", NFile Examples.file_info);
      ("late.txt", NFile late_info);
      ("new.txt", NFile Examples.file_info) ].

Definition archive : Root := mkRoot (mkOsRoot (sandbox_Stat 16 archive_tree)).

End MoreExamples.

(** * Properties *)

(** ** Classification of mode bits *)

Section BitTests.

Lemma land_pow2_eq0 (m k : Z) :
  0 <= k -> (Z.land m (Z.shiftl 1 k) =? 0) = negb (Z.testbit m k).
Proof.
  intros Hk. rewrite Z.shiftl_1_l.
  destruct (Z.testbit m k) eqn:Hb; simpl.
  - apply Z.eqb_neq. intros H0.
    assert (Hk' : Z.testbit (Z.land m (2 ^ k)) k = true).
    { rewrite Z.land_spec, Hb, Z.pow2_bits_true by assumption. reflexivity. }
    rewrite H0, Z.bits_0 in Hk'. discriminate.
  - apply Z.eqb_eq. apply Z.bits_inj'. intros n Hn.
    rewrite Z.land_spec, Z.bits_0, Z.pow2_bits_eqb by assumption.
    destruct (Z.eqb_spec k n) as [->|]; [rewrite Hb; reflexivity|].
    apply andb_false_r.
Qed.

Lemma zero_test (m k : Z) :
  0 <= k -> negb (0 =? Z.land m (Z.shiftl 1 k)) = Z.testbit m k.
Proof.
  intros Hk. rewrite Z.eqb_sym, land_pow2_eq0 by assumption.
  apply negb_involutive.
Qed.

Lemma land_lor_eq0 (m a b : Z) :
  (Z.land m (Z.lor a b) =? 0) = (Z.land m a =? 0) && (Z.land m b =? 0).
Proof.
  rewrite Z.land_lor_distr_r.
  destruct (Z.eqb_spec (Z.land m a) 0) as [Ha|Ha],
           (Z.eqb_spec (Z.land m b) 0) as [Hb|Hb]; simpl.
  - rewrite Ha, Hb. reflexivity.
  - apply Z.eqb_neq. rewrite Z.lor_eq_0_iff. tauto.
  - apply Z.eqb_neq. rewrite Z.lor_eq_0_iff. tauto.
  - apply Z.eqb_neq. rewrite Z.lor_eq_0_iff. tauto.
Qed.

Lemma IsRegular_bits (m : Z) : fs_IsRegular m = no_type_bit m.
Proof.
  unfold fs_IsRegular, ModeType, no_type_bit.
  rewrite !land_lor_eq0.
  unfold ModeDir, ModeSymlink, ModeNamedPipe, ModeSocket, ModeDevice,
    ModeCharDevice, ModeIrregular.
  rewrite !land_pow2_eq0 by lia.
  unfold bit_dir, bit_symlink, bit_pipe, bit_socket, bit_device, bit_char,
    bit_irregular.
  repeat match goal with |- context [Z.testbit m ?k] =>
    destruct (Z.testbit m k) end; reflexivity.
Qed.

Lemma IsDir_bits (m : Z) : fs_IsDir m = bit_dir m.
Proof.
  unfold fs_IsDir, ModeDir, bit_dir.
  rewrite land_pow2_eq0 by lia. apply negb_involutive.
Qed.

Lemma IsSymlink_bits (m : Z) : IsSymlink (mkFileMode m) = bit_symlink m.
Proof. apply zero_test. lia. Qed.

Lemma IsNamedPipe_bits (m : Z) : IsNamedPipe (mkFileMode m) = bit_pipe m.
Proof. apply zero_test. lia. Qed.

Lemma IsSocket_bits (m : Z) : IsSocket (mkFileMode m) = bit_socket m.
Proof. apply zero_test. lia. Qed.

Lemma IsCharDevice_bits (m : Z) : IsCharDevice (mkFileMode m) = bit_char m.
Proof. apply zero_test. lia. Qed.

Lemma IsDevice_bits (m : Z) : IsDevice (mkFileMode m) = bit_device m.
Proof. apply zero_test. lia. Qed.

Lemma IsBlockDevice_bits (m : Z) :
  IsBlockDevice (mkFileMode m) = bit_device m && negb (bit_char m).
Proof.
  unfold IsBlockDevice. cbv zeta.
  rewrite IsDevice_bits, IsCharDevice_bits. reflexivity.
Qed.

(** The switch of [ToFileType] reads the table [precedence] top down. *)
Lemma ToFileType_precedence (m : Z) :
  ToFileType (mkFileMode m) = first_match precedence m.
Proof.
  unfold ToFileType. cbn [bits].
  rewrite IsRegular_bits, IsDir_bits, IsSymlink_bits, IsNamedPipe_bits,
    IsSocket_bits, IsCharDevice_bits, IsBlockDevice_bits.
  reflexivity.
Qed.

(** In any table the first test that holds decides. *)
Lemma first_match_split (before after : list Category) (test : Z -> bool)
    (code : FileType) (m : Z) :
  matches_none before m = true ->
  test m = true ->
  first_match (before ++ (test, code) :: after) m = code.
Proof.
  induction before as [|[t c] before IH]; simpl; intros Hnone Htest.
  - rewrite Htest. reflexivity.
  - apply andb_true_iff in Hnone as [Ht Hnone].
    apply negb_true_iff in Ht. simpl in Ht. rewrite Ht. auto.
Qed.

Lemma first_match_none (table : list Category) (m : Z) :
  matches_none table m = true -> first_match table m = FileTypeUnspecified.
Proof.
  induction table as [|[t c] table IH]; simpl; intros Hnone.
  - reflexivity.
  - apply andb_true_iff in Hnone as [Ht Hnone].
    apply negb_true_iff in Ht. simpl in Ht. rewrite Ht. auto.
Qed.

Lemma first_match_codes (table : list Category) (m : Z) :
  first_match table m = FileTypeUnspecified
  \/ In (first_match table m) (map snd table).
Proof.
  induction table as [|[t c] table IH]; simpl.
  - left. reflexivity.
  - destruct (t m); [right; left; reflexivity|].
    destruct IH as [IH|IH]; [left|right; right]; assumption.
Qed.

End BitTests.

Section Classification.

(** C3 as stated fails: the precedence table as the specification words
    it is not the one the code follows.  A mode with the character bit
    and without the device bit is a character device for [ToFileType];
    by the table as specified it would be unspecified. *)
Lemma char_bit_without_device_bit :
  bit_device ModeCharDevice = false
  /\ ToFileType (mkFileMode ModeCharDevice) = FileTypeChar
  /\ first_match precedence_as_specified ModeCharDevice = FileTypeUnspecified
  /\ ToFileType (mkFileMode ModeCharDevice)
     <> first_match precedence_as_specified ModeCharDevice.
Proof.
  repeat split; try reflexivity.
  vm_compute. discriminate.
Qed.

(** C3, as amended: for every mode bit pattern [ToFileType] evaluates
    the categories in the order regular file, directory, symbolic link,
    named pipe, socket, character device (character bit set, whatever
    the device bit), block device (device bit set and character bit not
    set), otherwise unspecified; the first category that matches wins,
    so a mode matching several is classified as the earliest of them. *)
Theorem ToFileType_first_match_wins (m : Z) :
  ToFileType (mkFileMode m) = first_match precedence m
  /\ (forall before test code after,
        precedence = before ++ (test, code) :: after ->
        matches_none before m = true ->
        test m = true ->
        ToFileType (mkFileMode m) = code)
  /\ (matches_none precedence m = true ->
      ToFileType (mkFileMode m) = FileTypeUnspecified).
Proof.
  split; [apply ToFileType_precedence|split].
  - intros before test code after Htable Hnone Htest.
    rewrite ToFileType_precedence, Htable.
    apply first_match_split; assumption.
  - intros Hnone. rewrite ToFileType_precedence.
    apply first_match_none. assumption.
Qed.

(** A directory bit together with a symbolic-link bit and a socket bit:
    the directory, earliest in the order, wins. *)
Lemma ToFileType_first_match_wins_witness :
  ToFileType (mkFileMode (Z.lor ModeDir (Z.lor ModeSymlink ModeSocket)))
  = FileTypeFldr.
Proof.
  apply (proj1 (proj2 (ToFileType_first_match_wins
                         (Z.lor ModeDir (Z.lor ModeSymlink ModeSocket))))
           [(no_type_bit, FileTypeRglr)] bit_dir FileTypeFldr
           [ (bit_symlink, FileTypeSyml);
             (bit_pipe, FileTypePipe);
             (bit_socket, FileTypeSock);
             (bit_char, FileTypeChar);
             ((fun m => bit_device m && negb (bit_char m)), FileTypeBlck) ]);
    reflexivity.
Defined.

(** C4, as amended: for every mode bit pattern the classification is
    one of the eight enumerated codes, each of which is reached by some
    pattern; a pattern matching no category, a character device being
    any mode with the character bit set whether or not the device bit
    is set, yields the unspecified code and thus the label
    "UNKNOWN FILE TYPE".  [ToFileType] is a total function
    into the codes: it has no error to return. *)
Theorem ToFileType_enumerated (m : Z) :
  In (ToFileType (mkFileMode m)) enumerated
  /\ (forall code, In code enumerated ->
        exists m', ToFileType (mkFileMode m') = code)
  /\ (matches_none precedence m = true ->
      ToFileType (mkFileMode m) = FileTypeUnspecified
      /\ FileTypeToStringDefault (ToFileType (mkFileMode m))
         = "UNKNOWN FILE TYPE").
Proof.
  split; [|split].
  - rewrite ToFileType_precedence.
    destruct (first_match_codes precedence m) as [H|H].
    + rewrite H. left. reflexivity.
    + simpl in H. unfold enumerated. simpl. tauto.
  - intros code Hcode. unfold enumerated in Hcode. simpl in Hcode.
    destruct Hcode as [<-|[<-|[<-|[<-|[<-|[<-|[<-|[<-|[]]]]]]]]].
    + exists ModeIrregular. reflexivity.
    + exists ModeDevice. reflexivity.
    + exists (Z.lor ModeDevice ModeCharDevice). reflexivity.
    + exists ModeDir. reflexivity.
    + exists 420. reflexivity.
    + exists ModeSymlink. reflexivity.
    + exists ModeNamedPipe. reflexivity.
    + exists ModeSocket. reflexivity.
  - intros Hnone.
    assert (Hu : ToFileType (mkFileMode m) = FileTypeUnspecified).
    { rewrite ToFileType_precedence. apply first_match_none. assumption. }
    rewrite Hu. split; reflexivity.
Qed.

(** C4 as stated fails: with the categories as the specification words
    them, the mode with the character bit alone matches none, yet it is
    classified as a character device and labelled "character special". *)
Lemma unmatched_as_specified_yet_char :
  matches_none precedence_as_specified ModeCharDevice = true
  /\ ToFileType (mkFileMode ModeCharDevice) = FileTypeChar
  /\ ToFileType (mkFileMode ModeCharDevice) <> FileTypeUnspecified
  /\ FileTypeToStringDefault (ToFileType (mkFileMode ModeCharDevice))
     = "character special".
Proof.
  repeat split; try reflexivity.
  vm_compute. discriminate.
Qed.

(** An irregular file with permission bits 0644 matches no category. *)
Lemma ToFileType_enumerated_witness :
  ToFileType (mkFileMode (Z.lor ModeIrregular 420)) = FileTypeUnspecified
  /\ FileTypeToStringDefault (ToFileType (mkFileMode (Z.lor ModeIrregular 420)))
     = "UNKNOWN FILE TYPE".
Proof.
  apply (proj2 (proj2 (ToFileType_enumerated (Z.lor ModeIrregular 420)))).
  reflexivity.
Defined.

(** C5: the default labeler maps each of the eight codes to its label
    and every other code to the label of the unspecified code. *)
Theorem FileTypeToStringDefault_table :
  FileTypeToStringDefault FileTypeUnspecified = "UNKNOWN FILE TYPE"
  /\ FileTypeToStringDefault FileTypeRglr = "regular file"
  /\ FileTypeToStringDefault FileTypeFldr = "directory"
  /\ FileTypeToStringDefault FileTypeSyml = "symbolic link"
  /\ FileTypeToStringDefault FileTypePipe = "FIFO"
  /\ FileTypeToStringDefault FileTypeSock = "socket"
  /\ FileTypeToStringDefault FileTypeChar = "character special"
  /\ FileTypeToStringDefault FileTypeBlck = "block special"
  /\ (forall typ : FileType,
        ~ In typ enumerated ->
        FileTypeToStringDefault typ = "UNKNOWN FILE TYPE").
Proof.
  repeat match goal with |- _ /\ _ => split end; try reflexivity.
  intros typ Hout.
  unfold FileTypeToStringDefault, ToFileTypeToString,
    FileTypeToStringMapDefault.
  assert (Hmiss : fileTypeToStringMap !! typ = None).
  { unfold fileTypeToStringMap. cbn [list_to_map foldr uncurry fst snd].
    unfold enumerated in Hout. simpl in Hout.
    rewrite !lookup_insert_ne by (intros Heq; apply Hout; rewrite <- Heq; tauto).
    apply lookup_empty. }
  rewrite Hmiss. reflexivity.
Qed.

(** A code outside the table. *)
Lemma FileTypeToStringDefault_table_witness :
  FileTypeToStringDefault 7 = "UNKNOWN FILE TYPE".
Proof.
  apply (proj2 (proj2 (proj2 (proj2 (proj2 (proj2 (proj2 (proj2
           FileTypeToStringDefault_table)))))))).
  unfold enumerated, FileTypeUnspecified, FileTypeBlck, FileTypeChar,
    FileTypeFldr, FileTypeRglr, FileTypeSyml, FileTypePipe, FileTypeSock.
  simpl. intros H. repeat destruct H as [H|H]; try discriminate H. exact H.
Defined.

End Classification.

(** ** Time stamps *)

Section Instants.

Lemma wrap64_small (z : Z) : int64_range z -> wrap64 z = z.
Proof.
  unfold int64_range, wrap64. intros Hz.
  rewrite Z.mod_small by lia. lia.
Qed.

Lemma wrap64_add_l (a b : Z) : wrap64 (wrap64 a + b) = wrap64 (a + b).
Proof.
  unfold wrap64.
  replace ((a + 2 ^ 63) mod 2 ^ 64 - 2 ^ 63 + b + 2 ^ 63)
    with ((a + 2 ^ 63) mod 2 ^ 64 + b) by lia.
  rewrite Zplus_mod_idemp_l. f_equal. f_equal. lia.
Qed.

Lemma quot_small_neg (a b : Z) : - b < a <= 0 -> Z.quot a b = 0.
Proof.
  intros Ha.
  replace a with (- - a) by lia.
  rewrite Z.quot_opp_l by lia.
  rewrite Z.quot_small by lia. reflexivity.
Qed.

(** The split of a microsecond count into whole seconds and the
    non-negative rest, as [time_UnixMicro] leaves it. *)
Lemma time_UnixMicro_fields (m : Z) :
  int64_range m ->
  unixSec (time_UnixMicro m) = m / 10 ^ 6
  /\ nsec (time_UnixMicro m) = (m mod 10 ^ 6) * 10 ^ 3.
Proof.
  unfold int64_range. intros Hm.
  unfold time_UnixMicro, time_Unix.
  change (2 ^ 63) with 9223372036854775808 in Hm.
  change (10 ^ 6) with 1000000. change (10 ^ 3) with 1000.
  change (10 ^ 9) with 1000000000.
  pose proof (Z.quot_rem' m 1000000) as Hqr.
  pose proof (Z.div_mod m 1000000 ltac:(lia)) as Hdm.
  pose proof (Z.mod_pos_bound m 1000000 ltac:(lia)) as Hmod.
  set (q := Z.quot m 1000000) in *. set (r := Z.rem m 1000000) in *.
  destruct (Z.le_gt_cases 0 m) as [Hpos|Hneg].
  - pose proof (Z.rem_bound_pos m 1000000 Hpos ltac:(lia)) as Hr. fold r in Hr.
    rewrite (wrap64_small (r * 1000))
      by (unfold int64_range; change (2 ^ 63) with 9223372036854775808; lia).
    replace (r * 1000 <? 0) with false by (symmetry; apply Z.ltb_ge; lia).
    replace (1000000000 <=? r * 1000) with false
      by (symmetry; apply Z.leb_gt; lia).
    simpl. split; nia.
  - assert (Hr : - 1000000 < r <= 0).
    { unfold r. replace m with (- - m) by lia.
      rewrite Z.rem_opp_l by lia.
      pose proof (Z.rem_bound_pos (- m) 1000000 ltac:(lia) ltac:(lia)). lia. }
    rewrite (wrap64_small (r * 1000))
      by (unfold int64_range; change (2 ^ 63) with 9223372036854775808; lia).
    destruct (Z.ltb_spec (r * 1000) 0) as [Hlt|Hge].
    + cbn [orb].
      rewrite (quot_small_neg (r * 1000) 1000000000) by lia.
      change (0 * 1000000000) with 0.
      rewrite (wrap64_small 0)
        by (unfold int64_range; change (2 ^ 63) with 9223372036854775808; lia).
      rewrite Z.add_0_r, Z.sub_0_r.
      rewrite (wrap64_small q)
        by (unfold int64_range; change (2 ^ 63) with 9223372036854775808; nia).
      rewrite (wrap64_small (r * 1000))
        by (unfold int64_range; change (2 ^ 63) with 9223372036854775808; lia).
      replace (r * 1000 <? 0) with true by (symmetry; apply Z.ltb_lt; lia).
      rewrite (wrap64_small (q - 1))
        by (unfold int64_range; change (2 ^ 63) with 9223372036854775808; nia).
      rewrite (wrap64_small (r * 1000 + 1000000000))
        by (unfold int64_range; change (2 ^ 63) with 9223372036854775808; lia).
      simpl. split; nia.
    + replace (1000000000 <=? r * 1000) with false
        by (symmetry; apply Z.leb_gt; lia).
      simpl. split; nia.
Qed.


End Instants.

(** ** Resolving one name *)

Section Resolve.

Lemma WithFullPath_Path (b : BasicStat) (f : string) : Path (WithFullPath b f) = f.
Proof. reflexivity. Qed.

(** A result without an error carries the name it was asked about. *)
Lemma NameToBasicStat_nil_Path (r : Root) (name : string) :
  snd (NameToBasicStat r name) = None ->
  Path (fst (NameToBasicStat r name)) = name.
Proof.
  unfold NameToBasicStat.
  destruct (NameToInfo r name) as [fi|e]; simpl; [reflexivity|discriminate].
Qed.

(** C8: for a name that resolves, the returned record has the name as
    supplied for its [Path], and [Size] and [Modified] (and the file
    type) from the queried metadata; no error comes with it. *)
Theorem NameToBasicStat_success (r : Root) (name : string) (fi : FileInfo) :
  NameToInfo r name = inl fi ->
  NameToBasicStat r name
  = ({| Path := name;
        Size := info_Size fi;
        Modified := Time_UnixMicro (info_ModTime fi);
        fileType := ToFileType (mkFileMode (info_Mode fi)) |}, None).
Proof.
  intros Hinfo. unfold NameToBasicStat. rewrite Hinfo. reflexivity.
Qed.

(** A name with a [..] segment that stays inside the root keeps its
    spelling in [Path]. *)
Lemma NameToBasicStat_success_witness :
  NameToBasicStat Examples.jail "sub/../a.txt"
  = ({| Path := "sub/../a.txt";
        Size := 5;
        Modified := 1700000000123456;
        fileType := FileTypeRglr |}, None).
Proof.
  apply (NameToBasicStat_success Examples.jail "sub/../a.txt" Examples.file_info).
  reflexivity.
Defined.

(** C10: for a name whose resolution fails, the returned record is the
    zero value (empty [Path], [Size] 0, [Modified] 0, unspecified file
    type) and the error is the one the stat query gave. *)
Theorem NameToBasicStat_failure (r : Root) (name : string) (e : Error) :
  NameToInfo r name = inr e ->
  NameToBasicStat r name
  = ({| Path := EmptyString;
        Size := 0;
        Modified := 0;
        fileType := FileTypeUnspecified |}, Some e).
Proof.
  intros Hinfo. unfold NameToBasicStat. rewrite Hinfo. reflexivity.
Qed.

Lemma NameToBasicStat_failure_witness :
  NameToBasicStat Examples.jail "nope"
  = ({| Path := EmptyString;
        Size := 0;
        Modified := 0;
        fileType := FileTypeUnspecified |}, Some NameNotFound).
Proof.
  apply (NameToBasicStat_failure Examples.jail "nope" NameNotFound).
  reflexivity.
Defined.



End Resolve.

(** ** The streaming pipeline *)

Section Streaming.

Variable json_Marshal : BasicStatJson -> option Error.
Variable c : FileTypeToString.
Variable i : FilenameToBasicStat.

Lemma world_eta (w : World) : mkWorld (pulled w) (resolved w) (written w) = w.
Proof. destruct w. reflexivity. Qed.

(** One turn of a [ReaderToNames] loop. *)
Lemma ReaderToNames_cons (L : Type) (yield : string -> M L bool)
    (name : string) (rest : list string) (l : L) (w : World) :
  ReaderToNames (name :: rest) L yield (l, w)
  = let '(continue, st) :=
      yield name (l, mkWorld (pulled w ++ [name]) (resolved w) (written w)) in
    if continue then ReaderToNames rest L yield st else (tt, st).
Proof.
  cbn [ReaderToNames]. unfold bind, note_pulled, ret. cbn [fst snd].
  destruct (yield name _) as [[|] st]; reflexivity.
Qed.

(** The body of the writer's loop, handed the result for one name. *)
Lemma write_turn (name : string) (buf : list BasicStatJson) (w : World) :
  (note_resolved name ;;;
   let (s, e) := i name in write_body json_Marshal c s e)
    (mkWriterLocals buf None, w)
  = let w' := mkWorld (pulled w) (resolved w ++ [name]) (written w) in
    match snd (i name) with
    | Some err => (false, (mkWriterLocals buf (Some err), w'))
    | None =>
        match json_Marshal (ToJsonObj (fst (i name)) c) with
        | Some err => (false, (mkWriterLocals buf (Some err), w'))
        | None =>
            (true, (mkWriterLocals (buf ++ [ToJsonObj (fst (i name)) c]) None, w'))
        end
    end.
Proof.
  unfold bind at 1. unfold note_resolved. cbn [fst snd].
  destruct (i name) as [s [err|]]; cbn [fst snd].
  - reflexivity.
  - unfold write_body, Encode.
    destruct (json_Marshal (ToJsonObj s c)) as [err|]; reflexivity.
Qed.

(** The loop of the writer over the stream of stats, whatever the buffer
    and the world it starts from, does what [fail_fast_run] tells. *)
Lemma write_loop_fail_fast (names : list string) :
  forall (buf : list BasicStatJson) (w : World),
    NamesToBasicStats i (ReaderToNames names) WriterLocals
      (write_body json_Marshal c) (mkWriterLocals buf None, w)
    = let '(taken, lines, e) := fail_fast_run json_Marshal c i names in
      (tt, (mkWriterLocals (buf ++ lines) e,
            mkWorld (pulled w ++ taken) (resolved w ++ taken) (written w))).
Proof.
  unfold NamesToBasicStats.
  induction names as [|name rest IH]; intros buf w.
  - simpl. unfold ret. rewrite !app_nil_r, world_eta. reflexivity.
  - rewrite ReaderToNames_cons, write_turn. cbn [fail_fast_run].
    destruct (snd (i name)) as [err|].
    + cbn [pulled resolved written]. rewrite app_nil_r. reflexivity.
    + destruct (json_Marshal (ToJsonObj (fst (i name)) c)) as [err|].
      * cbn [pulled resolved written]. rewrite app_nil_r. reflexivity.
      * cbv zeta. rewrite IH. cbn [pulled resolved written].
        destruct (fail_fast_run json_Marshal c i rest) as [[taken lines] e].
        rewrite <- !app_assoc. reflexivity.
Qed.

(** [BasicStatsToWriter] over the stream of stats: the error, the names
    taken and the lines that reached the writer. *)
Lemma BasicStatsToWriter_fail_fast (names : list string) (w : World) :
  BasicStatsToWriter json_Marshal c (NamesToBasicStats i (ReaderToNames names)) w
  = let '(taken, lines, e) := fail_fast_run json_Marshal c i names in
    (e, mkWorld (pulled w ++ taken) (resolved w ++ taken) (written w ++ lines)).
Proof.
  unfold BasicStatsToWriter. rewrite write_loop_fail_fast.
  destruct (fail_fast_run json_Marshal c i names) as [[taken lines] e].
  reflexivity.
Qed.

(** Names that all resolve and marshal are all taken, one line each. *)
Lemma fail_fast_run_app (pre post : list string) :
  (forall n, In n pre ->
     snd (i n) = None /\ json_Marshal (ToJsonObj (fst (i n)) c) = None) ->
  fail_fast_run json_Marshal c i (pre ++ post)
  = let '(taken, lines, e) := fail_fast_run json_Marshal c i post in
    (pre ++ taken, map (fun n => ToJsonObj (fst (i n)) c) pre ++ lines, e).
Proof.
  induction pre as [|n pre IH]; intros Hpre.
  - simpl. destruct (fail_fast_run json_Marshal c i post) as [[? ?] ?].
    reflexivity.
  - cbn [app fail_fast_run].
    destruct (Hpre n (or_introl eq_refl)) as [-> ->].
    rewrite IH by (intros n' Hn'; apply Hpre; right; assumption).
    destruct (fail_fast_run json_Marshal c i post) as [[? ?] ?].
    reflexivity.
Qed.

(** Every line of a run is the object of a name that resolved. *)
Lemma fail_fast_run_lines (names : list string) (j : BasicStatJson) :
  In j (snd (fst (fail_fast_run json_Marshal c i names))) ->
  exists n, In n names /\ snd (i n) = None /\ j = ToJsonObj (fst (i n)) c.
Proof.
  induction names as [|name rest IH]; cbn [fail_fast_run].
  - intros [].
  - destruct (snd (i name)) eqn:He; [intros []|].
    destruct (json_Marshal (ToJsonObj (fst (i name)) c)); [intros []|].
    destruct (fail_fast_run json_Marshal c i rest) as [[taken lines] e].
    cbn [fst snd] in *. intros [<-|Hin].
    + exists name. repeat split; [left; reflexivity|assumption].
    + destruct (IH Hin) as (n & Hn & Hrest). exists n.
      split; [right; assumption|assumption].
Qed.

(** The loop of a consumer that never stops. *)
Lemma take_all_loop (names : list string) :
  forall (got : list (BasicStat * option Error)) (w : World),
    NamesToBasicStats i (ReaderToNames names) _ take_all (got, w)
    = (tt, (got ++ map i names,
            mkWorld (pulled w ++ names) (resolved w ++ names) (written w))).
Proof.
  unfold NamesToBasicStats.
  induction names as [|name rest IH]; intros got w.
  - simpl. unfold ret. rewrite !app_nil_r, world_eta. reflexivity.
  - rewrite ReaderToNames_cons.
    unfold bind at 1. unfold note_resolved. cbn [fst snd pulled resolved written].
    destruct (i name) as [s e] eqn:Hi.
    unfold take_all at 1, bind, get_local, set_local, ret. cbn [fst snd].
    rewrite IH. cbn [pulled resolved written map].
    rewrite Hi, <- !app_assoc. reflexivity.
Qed.

(** The loop of [Collect] up to the first result that carries an error. *)
Lemma collect_loop (pre post : list string) (b : string) (e : Error) :
  (forall n, In n pre -> snd (i n) = None) ->
  snd (i b) = Some e ->
  forall (acc : list BasicStat) (w : World),
    NamesToBasicStats i (ReaderToNames (pre ++ b :: post)) CollectLocals
      collect_body (mkCollectLocals acc None, w)
    = (tt, (mkCollectLocals (acc ++ map (fun n => fst (i n)) pre) (Some e),
            mkWorld (pulled w ++ pre ++ [b]) (resolved w ++ pre ++ [b])
              (written w))).
Proof.
  intros Hpre Hb. unfold NamesToBasicStats.
  induction pre as [|n pre IH]; intros acc w; cbn [app map].
  - rewrite ReaderToNames_cons.
    unfold bind at 1. unfold note_resolved. cbn [fst snd pulled resolved written].
    destruct (i b) as [s eb]. cbn [snd] in Hb. subst eb.
    rewrite app_nil_r. reflexivity.
  - rewrite ReaderToNames_cons.
    unfold bind at 1. unfold note_resolved. cbn [fst snd pulled resolved written].
    pose proof (Hpre n (or_introl eq_refl)) as Hn.
    destruct (i n) as [s en] eqn:Hi. cbn [snd] in Hn. subst en.
    unfold collect_body at 1, bind, get_local, set_local, ret.
    cbn [fst snd collected].
    rewrite IH by (intros n' Hn'; apply Hpre; right; assumption).
    cbn [pulled resolved written fst]. rewrite <- !app_assoc. reflexivity.
Qed.

(** [Collect], the other consumer of the source, stops at the first
    result that carries an error as well and drops what it collected. *)
Lemma Collect_first_error (pre post : list string) (b : string) (e : Error)
    (w : World) :
  (forall n, In n pre -> snd (i n) = None) ->
  snd (i b) = Some e ->
  Collect (NamesToBasicStats i (ReaderToNames (pre ++ b :: post))) w
  = (([], Some e),
     mkWorld (pulled w ++ pre ++ [b]) (resolved w ++ pre ++ [b]) (written w)).
Proof.
  intros Hpre Hb. unfold Collect.
  rewrite (collect_loop pre post b e Hpre Hb). reflexivity.
Qed.

End Streaming.

Section StreamingClaims.

(** C6: when the stream of [NamesToBasicStats] over a finite sequence of
    names is consumed to its end, it has yielded exactly one result per
    name, the result of the name at the same position; every name was
    pulled and resolved once, in order. *)
Theorem NamesToBasicStats_one_result_per_name
    (i : FilenameToBasicStat) (names : list string) (w : World) :
  let results := fst (consume_all (NamesToBasicStats i (ReaderToNames names)) w) in
  let w' := snd (consume_all (NamesToBasicStats i (ReaderToNames names)) w) in
  results = map i names
  /\ length results = length names
  /\ (forall k : nat, results !! k = i <$> (names !! k))
  /\ pulled w' = pulled w ++ names
  /\ resolved w' = resolved w ++ names.
Proof.
  unfold consume_all. rewrite take_all_loop.
  cbn [fst snd pulled resolved app].
  repeat split.
  - apply List.length_map.
  - intros k. change (map i names) with (i <$> names).
    apply list_lookup_fmap.
Qed.

(** C2, as amended: for names [a; b; c] where [a] resolves and its
    record is encoded, and [b] fails to resolve, the run writes exactly one line,
    the one of [a], none for [b] or [c], and returns the error of [b];
    the line of [a] is in the output after the run.  [c] is never
    pulled. *)
Theorem NamesToBasicStatsToStdout_partial_output
    (json_Marshal : BasicStatJson -> option Error) (i : FilenameToBasicStat)
    (a b c : string) (sa sb : BasicStat) (eb : Error) (w : World) :
  i a = (sa, None) ->
  json_Marshal (ToJsonObj sa FileTypeToStringDefault) = None ->
  i b = (sb, Some eb) ->
  NamesToBasicStatsToStdout json_Marshal i (ReaderToNames [a; b; c]) w
  = (Some eb,
     {| pulled := pulled w ++ [a; b];
        resolved := resolved w ++ [a; b];
        written := written w ++ [ToJsonObj sa FileTypeToStringDefault] |}).
Proof.
  intros Ha Hja Hb.
  unfold NamesToBasicStatsToStdout, BasicStatsToStdoutDefault, BasicStatsToStdout.
  rewrite BasicStatsToWriter_fail_fast.
  cbn [fail_fast_run]. rewrite Ha. cbn [fst snd]. rewrite Hja, Hb.
  reflexivity.
Qed.

(** C2 as stated fails: [late.txt] resolves and [nope] does not, but
    the record of [late.txt] is not encoded; the run ends with the
    encoder's error, has written no line and has not pulled [nope]. *)
Lemma encode_failure_before_resolve_failure :
  snd (ToFilenameToBasicStat MoreExamples.archive "late.txt") = None
  /\ snd (ToFilenameToBasicStat MoreExamples.archive "nope") = Some NameNotFound
  /\ NamesToBasicStatsToStdout MoreExamples.marshal_years
       (ToFilenameToBasicStat MoreExamples.archive)
       (ReaderToNames ["late.txt"; "nope"; "old.txt"]) world0
     = (Some EncodeFailure,
        {| pulled := ["late.txt"]; resolved := ["late.txt"]; written := [] |}).
Proof. repeat split. Qed.

Lemma NamesToBasicStatsToStdout_partial_output_witness :
  NamesToBasicStatsToStdout Examples.marshal_all
    (ToFilenameToBasicStat Examples.jail)
    (ReaderToNames ["a.txt"; "nope"; "sub/b.txt"]) world0
  = (Some NameNotFound,
     {| pulled := ["a.txt"; "nope"];
        resolved := ["a.txt"; "nope"];
        written :=
          [ {| json_Path := "a.txt";
               json_Size := 5;
               json_Modified := mkTime 1700000000 123456000;
               json_FileType := "regular file" |} ] |}).
Proof.
  apply (NamesToBasicStatsToStdout_partial_output Examples.marshal_all
           (ToFilenameToBasicStat Examples.jail) "a.txt" "nope" "sub/b.txt"
           (mkBasicStat "a.txt" 5 1700000000123456 FileTypeRglr)
           empty NameNotFound world0); reflexivity.
Defined.

(** C7: in a run of the pipeline the first result that carries an error
    is the last one produced: the names before it and the name it
    belongs to have been pulled and resolved, none of the names after
    it, and the run ends with that error. *)
Theorem pipeline_stops_at_first_error
    (json_Marshal : BasicStatJson -> option Error) (c : FileTypeToString)
    (i : FilenameToBasicStat) (pre post : list string) (b : string)
    (e : Error) (w : World) :
  (forall n, In n pre ->
     snd (i n) = None /\ json_Marshal (ToJsonObj (fst (i n)) c) = None) ->
  snd (i b) = Some e ->
  BasicStatsToWriter json_Marshal c
    (NamesToBasicStats i (ReaderToNames (pre ++ b :: post))) w
  = (Some e,
     {| pulled := pulled w ++ pre ++ [b];
        resolved := resolved w ++ pre ++ [b];
        written := written w ++ map (fun n => ToJsonObj (fst (i n)) c) pre |}).
Proof.
  intros Hpre Hb.
  rewrite BasicStatsToWriter_fail_fast, fail_fast_run_app by assumption.
  cbn [fail_fast_run]. rewrite Hb. rewrite app_nil_r. reflexivity.
Qed.

Lemma pipeline_stops_at_first_error_witness :
  BasicStatsToWriter Examples.marshal_all FileTypeToStringDefault
    (NamesToBasicStats (ToFilenameToBasicStat Examples.jail)
       (ReaderToNames (["a.txt"; "in"] ++ "out" :: ["sub"; "a.txt"]))) world0
  = (Some PathEscapesRoot,
     {| pulled := ["a.txt"; "in"; "out"];
        resolved := ["a.txt"; "in"; "out"];
        written :=
          map (fun n =>
                 ToJsonObj (fst (ToFilenameToBasicStat Examples.jail n))
                   FileTypeToStringDefault) ["a.txt"; "in"] |}).
Proof.
  apply (pipeline_stops_at_first_error Examples.marshal_all
           FileTypeToStringDefault (ToFilenameToBasicStat Examples.jail)
           ["a.txt"; "in"] ["sub"; "a.txt"] "out" PathEscapesRoot world0).
  - intros n [<-|[<-|[]]]; split; reflexivity.
  - reflexivity.
Defined.

End StreamingClaims.

(** ** Containment in the sandbox root *)

Section Containment.

Lemma lookup_node_app (p q : list string) :
  forall top : Node,
    lookup_node top (p ++ q)
    = match lookup_node top p with
      | Some n => lookup_node n q
      | None => None
      end.
Proof.
  induction p as [|c p IH]; intros top; cbn [app lookup_node].
  - reflexivity.
  - destruct top as [fi|fi entries|target]; try reflexivity.
    destruct (entry c entries) as [child|]; [apply IH|reflexivity].
Qed.

Lemma is_prefix_app (p q : list string) : is_prefix p (p ++ q) = true.
Proof.
  unfold is_prefix. apply bool_decide_eq_true.
  rewrite take_app_length. reflexivity.
Qed.

(** A directory reached inside the root, seen from the top of the disk. *)
Lemma inside_path (rootp here : list string) (c : string) :
  rev (c :: here ++ rev rootp) = rootp ++ rev (c :: here).
Proof.
  cbn [rev]. rewrite rev_app_distr, rev_involutive, app_assoc. reflexivity.
Qed.

(** While the unsandboxed walk is inside the root, the sandboxed one is
    at the same directory and sees the same nodes; where the first
    leaves the root, the second refuses. *)
Lemma leaves_root_rejected (disk root : Node) (rootp : list string) :
  lookup_node disk rootp = Some root ->
  forall (steps : nat) (here rest : list string),
    leaves_root steps disk rootp (here ++ rev rootp) rest = true ->
    stat_in_root steps root here rest = inr PathEscapesRoot.
Proof.
  intros Hroot. induction steps as [|steps IH]; intros here rest.
  - cbn [leaves_root].
    rewrite rev_app_distr, rev_involutive, is_prefix_app. discriminate.
  - cbn [leaves_root stat_in_root].
    rewrite rev_app_distr, rev_involutive, is_prefix_app. cbn [negb].
    destruct rest as [|c rest]; [discriminate|].
    destruct (String.eqb c "..").
    + destruct here as [|x up]; [reflexivity|].
      cbn [app tail]. apply IH.
    + change (c :: here ++ rev rootp) with (c :: (here ++ rev rootp)).
      rewrite inside_path, lookup_node_app, Hroot.
      destruct (lookup_node root (rev (c :: here))) as [[fi|fi entries|target]|];
        try discriminate.
      * apply (IH (c :: here)).
      * destruct (is_absolute target); [reflexivity|apply IH].
Qed.

(** A walk that leaves the root within some number of steps leaves it
    within any larger number. *)
Lemma leaves_root_more_steps (disk : Node) (rootp : list string) :
  forall (k steps : nat) (cur rest : list string),
    (k <= steps)%nat ->
    leaves_root k disk rootp cur rest = true ->
    leaves_root steps disk rootp cur rest = true.
Proof.
  induction k as [|k IH]; intros steps cur rest Hle.
  - cbn [leaves_root].
    destruct (is_prefix rootp (rev cur)) eqn:Hin; cbn [negb];
      [discriminate|].
    intros _. destruct steps; cbn [leaves_root]; rewrite Hin; reflexivity.
  - destruct steps as [|steps]; [lia|].
    cbn [leaves_root].
    destruct (is_prefix rootp (rev cur)); cbn [negb]; [|reflexivity].
    destruct rest as [|c rest]; [discriminate|].
    destruct (String.eqb c "..").
    + apply IH. lia.
    + destruct (lookup_node disk (rev (c :: cur))) as [[fi|fi entries|target]|];
        try discriminate; apply IH; lia.
Qed.

(** A name that would escape is refused by the root's [Stat]. *)
Lemma would_escape_rejected (k steps : nat) (disk root : Node)
    (rootp : list string) (name : string) :
  lookup_node disk rootp = Some root ->
  (k <= steps)%nat ->
  would_escape k disk rootp name = true ->
  sandbox_Stat steps root name = inr PathEscapesRoot.
Proof.
  intros Hroot Hle. unfold would_escape, sandbox_Stat.
  destruct (is_absolute name); [reflexivity|].
  intros Hk.
  apply (leaves_root_rejected disk root rootp Hroot steps []).
  apply (leaves_root_more_steps disk rootp k steps _ _ Hle Hk).
Qed.

(** C1: a name whose resolution would escape the root (through [..]
    segments or a symbolic link whose target lies outside), within the
    steps the root allows, is refused with [PathEscapesRoot] by
    [NameToBasicStat], and no run of the pipeline writes a record for
    that name. *)
Theorem escaping_name_rejected
    (json_Marshal : BasicStatJson -> option Error)
    (k steps : nat) (disk : Node) (d : string) (handle : os_Root)
    (name : string) (names : list string) (w : World) :
  ToRoot steps disk d = inl handle ->
  (k <= steps)%nat ->
  would_escape k disk (components d) name = true ->
  NameToBasicStat (mkRoot handle) name = (empty, Some PathEscapesRoot)
  /\ exists lines : list BasicStatJson,
       written (snd (Root_NamesToBasicStatsToStdout json_Marshal
                       (mkRoot handle) (ReaderToNames names) w))
       = written w ++ lines
       /\ forall j, In j lines -> json_Path j <> name.
Proof.
  intros Hopen Hle Hescape.
  assert (Hstat : NameToBasicStat (mkRoot handle) name
                  = (empty, Some PathEscapesRoot)).
  { unfold ToRoot, os_OpenRoot in Hopen.
    destruct (lookup_node disk (components d)) as [[fi|fi entries|target]|] eqn:Hroot;
      try discriminate.
    injection Hopen as <-.
    unfold NameToBasicStat, NameToInfo. cbn [osRoot os_Root_Stat].
    rewrite (would_escape_rejected k steps disk _ _ name Hroot Hle Hescape).
    reflexivity. }
  split; [exact Hstat|].
  unfold Root_NamesToBasicStatsToStdout, NamesToBasicStatsToStdout,
    BasicStatsToStdoutDefault, BasicStatsToStdout.
  rewrite BasicStatsToWriter_fail_fast.
  pose proof (fail_fast_run_lines json_Marshal FileTypeToStringDefault
                (ToFilenameToBasicStat (mkRoot handle)) names) as Hlines.
  destruct (fail_fast_run json_Marshal FileTypeToStringDefault
              (ToFilenameToBasicStat (mkRoot handle)) names)
    as [[taken lines] e].
  cbn [fst snd written] in *. exists lines. split; [reflexivity|].
  intros j Hj Hpath.
  destruct (Hlines j Hj) as (n & _ & Hnil & ->).
  unfold ToFilenameToBasicStat in *. cbn [ToJsonObj json_Path] in Hpath.
  rewrite (NameToBasicStat_nil_Path _ _ Hnil) in Hpath. subst n.
  rewrite Hstat in Hnil. discriminate.
Qed.

(** The symbolic link [out] of the jail points at [../secret]. *)
Lemma escaping_name_rejected_witness :
  NameToBasicStat Examples.jail "out" = (empty, Some PathEscapesRoot)
  /\ exists lines : list BasicStatJson,
       written (snd (Root_NamesToBasicStatsToStdout Examples.marshal_all
                       Examples.jail (ReaderToNames ["a.txt"; "out"; "in"])
                       world0))
       = written world0 ++ lines
       /\ forall j, In j lines -> json_Path j <> "out".
Proof.
  apply (escaping_name_rejected Examples.marshal_all 3%nat 16%nat
           Examples.disk "/jail" (osRoot Examples.jail) "out"
           ["a.txt"; "out"; "in"] world0);
    [reflexivity | lia | reflexivity].
Defined.

End Containment.

(** * Further properties of the code *)

(** ** Labels *)

Section Labels.

Lemma default_label_outside (typ : FileType) :
  ~ In typ enumerated -> fileTypeToStringMap !! typ = None.
Proof.
  intros Hout. unfold fileTypeToStringMap.
  cbn [list_to_map foldr uncurry fst snd].
  unfold enumerated in Hout. simpl in Hout.
  rewrite !lookup_insert_ne by (intros Heq; apply Hout; rewrite <- Heq; tauto).
  apply lookup_empty.
Qed.

Lemma enumerated_dec (typ : FileType) : In typ enumerated \/ ~ In typ enumerated.
Proof.
  destruct (In_dec Z.eq_dec typ enumerated); [left|right]; assumption.
Qed.

(** X1: overriding the label of one code in any map changes the labeler
    at that code; the label of every other code present in the map is
    kept; the fallback for absent codes changes exactly when the code
    overridden is the unspecified one. *)
Theorem ToFileTypeToString_insert (m : FileTypeToStringMap) (k : FileType)
    (v : string) :
  ToFileTypeToString (<[k := v]> m) k = v
  /\ (forall j, j <> k -> is_Some (m !! j) ->
        ToFileTypeToString (<[k := v]> m) j = ToFileTypeToString m j)
  /\ (forall j, j <> k -> m !! j = None -> k <> FileTypeUnspecified ->
        ToFileTypeToString (<[k := v]> m) j = ToFileTypeToString m j)
  /\ (forall j, j <> k -> m !! j = None -> k = FileTypeUnspecified ->
        ToFileTypeToString (<[k := v]> m) j = v).
Proof.
  unfold ToFileTypeToString, map_index. repeat split.
  - rewrite lookup_insert_eq. reflexivity.
  - intros j Hjk [x Hx]. rewrite lookup_insert_ne, Hx by congruence.
    reflexivity.
  - intros j Hjk Hj Hk. rewrite !lookup_insert_ne, Hj by congruence.
    reflexivity.
  - intros j Hjk Hj ->. rewrite lookup_insert_ne, Hj by congruence.
    rewrite lookup_insert_eq. reflexivity.
Qed.

Lemma ToFileTypeToString_insert_witness :
  ToFileTypeToString (<[FileTypeUnspecified := "other"]> fileTypeToStringMap) 7
  = "other".
Proof.
  apply (proj2 (proj2 (proj2
           (ToFileTypeToString_insert fileTypeToStringMap
              FileTypeUnspecified "other"))) 7).
  - discriminate.
  - reflexivity.
  - reflexivity.
Defined.

(** X2: under the default labeler distinct codes of the enumeration have
    distinct labels, and a code is labelled "UNKNOWN FILE TYPE" exactly
    when it is none of the seven named kinds. *)
Theorem FileTypeToStringDefault_injective :
  (forall a b : FileType,
     In a enumerated -> In b enumerated ->
     FileTypeToStringDefault a = FileTypeToStringDefault b -> a = b)
  /\ (forall typ : FileType,
        FileTypeToStringDefault typ = "UNKNOWN FILE TYPE"
        <-> ~ In typ [ FileTypeBlck; FileTypeChar; FileTypeFldr; FileTypeRglr;
                       FileTypeSyml; FileTypePipe; FileTypeSock ]).
Proof.
  split.
  - intros a b Ha Hb. unfold enumerated in Ha, Hb. simpl in Ha, Hb.
    repeat (destruct Ha as [<-|Ha]; [|]);
      try (exfalso; exact Ha);
      repeat (destruct Hb as [<-|Hb]; [|]);
      try (exfalso; exact Hb);
      intros Heq; try reflexivity; vm_compute in Heq; discriminate Heq.
  - intros typ. destruct (enumerated_dec typ) as [Hin|Hout].
    + unfold enumerated in Hin. simpl in Hin.
      repeat (destruct Hin as [<-|Hin]; [|]); try (exfalso; exact Hin);
        (split;
         [ intros Heq; first [ vm_compute in Heq; discriminate Heq
                             | intros Hin; simpl in Hin;
                               repeat (destruct Hin as [Hin|Hin];
                                       [discriminate Hin|]); exact Hin ]
         | intros Hnot; first [ reflexivity
                              | exfalso; apply Hnot; simpl; tauto ] ]).
    + split.
      * intros _ Hin. apply Hout. unfold enumerated. simpl in *. tauto.
      * intros _. unfold FileTypeToStringDefault, ToFileTypeToString,
          FileTypeToStringMapDefault.
        rewrite (default_label_outside typ Hout). reflexivity.
Qed.

Lemma FileTypeToStringDefault_injective_witness :
  FileTypeToStringDefault 101 = "UNKNOWN FILE TYPE".
Proof.
  apply (proj2 (proj2 FileTypeToStringDefault_injective 101)).
  unfold FileTypeBlck, FileTypeChar, FileTypeFldr, FileTypeRglr,
    FileTypeSyml, FileTypePipe, FileTypeSock.
  simpl. intros H. repeat destruct H as [H|H]; try discriminate H. exact H.
Defined.

End Labels.

(** ** Mode bits *)

Section ModeBits.

Ltac by_type_bits m :=
  unfold first_match, precedence, precedence_as_specified, no_type_bit,
    bit_dir, bit_symlink, bit_pipe, bit_socket, bit_device, bit_char,
    bit_irregular in *;
  repeat match goal with
         | |- context [Z.testbit m ?k] => destruct (Z.testbit m k)
         | H : context [Z.testbit m ?k] |- _ => destruct (Z.testbit m k)
         end.

(** Bits outside the type bits do not reach the classification. *)
Lemma ToFileType_type_bits (m : Z) :
  ToFileType (mkFileMode (Z.land m ModeType)) = ToFileType (mkFileMode m).
Proof.
  rewrite !ToFileType_precedence.
  unfold first_match, precedence, no_type_bit, bit_dir, bit_symlink,
    bit_pipe, bit_socket, bit_device, bit_char, bit_irregular.
  rewrite !Z.land_spec.
  change (Z.testbit ModeType 31) with true.
  change (Z.testbit ModeType 27) with true.
  change (Z.testbit ModeType 26) with true.
  change (Z.testbit ModeType 25) with true.
  change (Z.testbit ModeType 24) with true.
  change (Z.testbit ModeType 21) with true.
  change (Z.testbit ModeType 19) with true.
  rewrite !andb_true_r. reflexivity.
Qed.

(** X3: permission bits, and any other bits outside the type bits
    (setuid, sticky, append-only, ...), never change the
    classification. *)
Theorem ToFileType_ignores_other_bits (m p : Z) :
  Z.land p ModeType = 0 ->
  ToFileType (mkFileMode (Z.lor m p)) = ToFileType (mkFileMode m).
Proof.
  intros Hp.
  rewrite <- (ToFileType_type_bits (Z.lor m p)), <- (ToFileType_type_bits m).
  rewrite Z.land_lor_distr_l, Hp, Z.lor_0_r. reflexivity.
Qed.

(** A directory with mode 04755 (setuid bit is 1<<23). *)
Lemma ToFileType_ignores_other_bits_witness :
  ToFileType (mkFileMode (Z.lor ModeDir (Z.lor (Z.shiftl 1 23) 493)))
  = ToFileType (mkFileMode ModeDir).
Proof.
  apply (ToFileType_ignores_other_bits ModeDir (Z.lor (Z.shiftl 1 23) 493)).
  reflexivity.
Defined.

(** X4: which bit patterns give which code.  Regular: no type bit.
    Directory: the directory bit.  Each later kind: its bit, and none of
    the bits tested before it.  Unspecified: the irregular bit alone. *)
Theorem ToFileType_characterised (m : Z) :
  (ToFileType (mkFileMode m) = FileTypeRglr <-> no_type_bit m = true)
  /\ (ToFileType (mkFileMode m) = FileTypeFldr <-> bit_dir m = true)
  /\ (ToFileType (mkFileMode m) = FileTypeSyml
      <-> bit_dir m = false /\ bit_symlink m = true)
  /\ (ToFileType (mkFileMode m) = FileTypePipe
      <-> bit_dir m = false /\ bit_symlink m = false /\ bit_pipe m = true)
  /\ (ToFileType (mkFileMode m) = FileTypeSock
      <-> bit_dir m = false /\ bit_symlink m = false /\ bit_pipe m = false
          /\ bit_socket m = true)
  /\ (ToFileType (mkFileMode m) = FileTypeChar
      <-> bit_dir m = false /\ bit_symlink m = false /\ bit_pipe m = false
          /\ bit_socket m = false /\ bit_char m = true)
  /\ (ToFileType (mkFileMode m) = FileTypeBlck
      <-> bit_dir m = false /\ bit_symlink m = false /\ bit_pipe m = false
          /\ bit_socket m = false /\ bit_char m = false
          /\ bit_device m = true)
  /\ (ToFileType (mkFileMode m) = FileTypeUnspecified
      <-> bit_dir m = false /\ bit_symlink m = false /\ bit_pipe m = false
          /\ bit_socket m = false /\ bit_char m = false
          /\ bit_device m = false /\ bit_irregular m = true).
Proof.
  rewrite ToFileType_precedence.
  by_type_bits m; cbn;
    unfold FileTypeRglr, FileTypeFldr, FileTypeSyml, FileTypePipe,
      FileTypeSock, FileTypeChar, FileTypeBlck, FileTypeUnspecified;
    repeat split; intros; try congruence; try tauto;
    repeat match goal with H : _ /\ _ |- _ => destruct H end;
    try congruence; try discriminate.
Qed.

(** A block device with mode 0660. *)
Lemma ToFileType_characterised_witness :
  ToFileType (mkFileMode (Z.lor ModeDevice 432)) = FileTypeBlck.
Proof.
  apply (proj2 (proj1 (proj2 (proj2 (proj2 (proj2 (proj2 (proj2
           (ToFileType_characterised (Z.lor ModeDevice 432)))))))))).
  repeat split.
Defined.

(** X5: on every mode in which the character bit comes with the device
    bit, as the platforms set them, the classification is the one of
    the table that asks for both bits. *)
Theorem ToFileType_as_specified_on_platform_modes (m : Z) :
  (bit_char m = true -> bit_device m = true) ->
  ToFileType (mkFileMode m) = first_match precedence_as_specified m.
Proof.
  intros Hplatform. rewrite ToFileType_precedence.
  by_type_bits m; cbn; try reflexivity;
    discriminate (Hplatform eq_refl).
Qed.

(** A character device as Unix reports it: both bits, mode 0620. *)
Lemma ToFileType_as_specified_on_platform_modes_witness :
  ToFileType (mkFileMode (Z.lor ModeDevice (Z.lor ModeCharDevice 400)))
  = first_match precedence_as_specified
      (Z.lor ModeDevice (Z.lor ModeCharDevice 400)).
Proof.
  apply (ToFileType_as_specified_on_platform_modes
           (Z.lor ModeDevice (Z.lor ModeCharDevice 400))).
  reflexivity.
Defined.

End ModeBits.

(** ** Modification times *)

Section Truncation.

(** X6: the time a record carries is the file's modification time cut
    down to whole microseconds: going through [UnixMicro] and back
    through [ToTime] keeps the second and drops the nanoseconds below
    one microsecond. *)
Theorem ToTime_UnixMicro_truncates (t : Time) :
  0 <= nsec t < 10 ^ 9 ->
  int64_range (unixSec t * 10 ^ 6 + nsec t / 10 ^ 3) ->
  ToTime (Time_UnixMicro t) = mkTime (unixSec t) (nsec t / 10 ^ 3 * 10 ^ 3).
Proof.
  intros Hns Hrange.
  assert (Hmicro : Time_UnixMicro t = unixSec t * 10 ^ 6 + nsec t / 10 ^ 3).
  { unfold Time_UnixMicro. rewrite wrap64_add_l.
    rewrite Z.quot_div_nonneg by (change (10 ^ 3) with 1000; lia).
    apply wrap64_small. assumption. }
  rewrite Hmicro. unfold ToTime.
  destruct (time_UnixMicro_fields _ Hrange) as [Hs Hn].
  destruct (time_UnixMicro (unixSec t * 10 ^ 6 + nsec t / 10 ^ 3)) as [s n].
  cbn [unixSec nsec] in Hs, Hn. subst s n.
  change (10 ^ 6) with 1000000 in *. change (10 ^ 3) with 1000 in *.
  change (10 ^ 9) with 1000000000 in *.
  assert (Hk : 0 <= nsec t / 1000 < 1000000).
  { split; [apply Z.div_pos; lia|apply Z.div_lt_upper_bound; lia]. }
  f_equal.
  - symmetry. apply (Z.div_unique _ _ _ (nsec t / 1000)); [lia|ring].
  - f_equal. symmetry.
    apply (Z.mod_unique _ _ (unixSec t)); [lia|ring].
Qed.

Lemma ToTime_UnixMicro_truncates_witness :
  ToTime (Time_UnixMicro (mkTime (-5) 123456789)) = mkTime (-5) 123456000.
Proof.
  apply (ToTime_UnixMicro_truncates (mkTime (-5) 123456789)).
  - split; [vm_compute; discriminate | reflexivity].
  - split; [vm_compute; discriminate | reflexivity].
Defined.

(** X7: what the encoder is handed for a name that resolves to a
    regular file: the name as path, the file's size, the label
    "regular file", and the modification time in whole microseconds. *)
Theorem regular_file_object (r : Root) (name : string) (fi : FileInfo) :
  NameToInfo r name = inl fi ->
  fs_IsRegular (info_Mode fi) = true ->
  0 <= nsec (info_ModTime fi) < 10 ^ 9 ->
  int64_range (unixSec (info_ModTime fi) * 10 ^ 6
               + nsec (info_ModTime fi) / 10 ^ 3) ->
  ToJsonObj (fst (NameToBasicStat r name)) FileTypeToStringDefault
  = {| json_Path := name;
       json_Size := info_Size fi;
       json_Modified :=
         mkTime (unixSec (info_ModTime fi))
           (nsec (info_ModTime fi) / 10 ^ 3 * 10 ^ 3);
       json_FileType := "regular file" |}.
Proof.
  intros Hinfo Hreg Hns Hrange.
  unfold NameToBasicStat. rewrite Hinfo. cbn [fst].
  unfold ToJsonObj, WithFullPath, ToBasicStat.
  cbn [Path Size Modified fileType].
  rewrite (ToTime_UnixMicro_truncates _ Hns Hrange).
  unfold ToFileType. cbn [bits]. rewrite Hreg. reflexivity.
Qed.

Lemma regular_file_object_witness :
  ToJsonObj (fst (NameToBasicStat Examples.jail "sub/b.txt"))
    FileTypeToStringDefault
  = {| json_Path := "sub/b.txt";
       json_Size := 5;
       json_Modified := mkTime 1700000000 (123456789 / 10 ^ 3 * 10 ^ 3);
       json_FileType := "regular file" |}.
Proof.
  apply (regular_file_object Examples.jail "sub/b.txt" Examples.file_info).
  - reflexivity.
  - reflexivity.
  - split; [vm_compute; discriminate | reflexivity].
  - split; [vm_compute; discriminate | reflexivity].
Defined.

End Truncation.

(** ** Pulling on demand *)

Section OnDemand.

Variable i : FilenameToBasicStat.

(** The body [NamesToBasicStats] hands to the name source. *)
Lemma stats_turn (L : Type) (yield : BasicStat -> option Error -> M L bool)
    (name : string) (l : L) (w : World) :
  (note_resolved name ;;; let (s, e) := i name in yield s e) (l, w)
  = yield (fst (i name)) (snd (i name))
      (l, mkWorld (pulled w) (resolved w ++ [name]) (written w)).
Proof.
  unfold bind, note_resolved. cbn [fst snd].
  destruct (i name) as [s e]. reflexivity.
Qed.

(** [Collect] over names that all resolve. *)
Lemma collect_loop_all (names : list string) :
  (forall n, In n names -> snd (i n) = None) ->
  forall (acc : list BasicStat) (w : World),
    NamesToBasicStats i (ReaderToNames names) CollectLocals
      collect_body (mkCollectLocals acc None, w)
    = (tt, (mkCollectLocals (acc ++ map (fun n => fst (i n)) names) None,
            mkWorld (pulled w ++ names) (resolved w ++ names) (written w))).
Proof.
  unfold NamesToBasicStats.
  induction names as [|n names IH]; intros Hall acc w; cbn [map].
  - cbn [ReaderToNames]. unfold ret. rewrite !app_nil_r, world_eta.
    reflexivity.
  - rewrite ReaderToNames_cons, stats_turn.
    rewrite (Hall n (or_introl eq_refl)).
    unfold collect_body at 1, bind, get_local, set_local, ret.
    cbn [fst snd collected pulled resolved written].
    rewrite IH by (intros n' Hn'; apply Hall; right; assumption).
    cbn [pulled resolved written]. rewrite <- !app_assoc. reflexivity.
Qed.

End OnDemand.

(** One turn of a watched consumer. *)
Lemma observed_turn (L : Type) (yield : BasicStat -> option Error -> M L bool)
    (s : BasicStat) (e : option Error) (l : L) (seen : list Sighting)
    (w : World) :
  observed yield s e ((l, seen), w)
  = (fst (yield s e (l, w)),
     ((fst (snd (yield s e (l, w))), seen ++ [(pulled w, resolved w)]),
      snd (snd (yield s e (l, w))))).
Proof.
  unfold observed. destruct (yield s e (l, w)) as [continue [l' w']].
  reflexivity.
Qed.

Section OnDemandProperties.

(** X8: the stream never resolves ahead of its consumer.  For any
    quiet consumer, watched at each of its turns: at its [j]-th turn
    exactly the first [j] names have been pulled and resolved, and when
    the run ends after [k] turns exactly the first [k] names have been;
    watching changes nothing of what the consumer and the world end up
    with. *)
Theorem NamesToBasicStats_pulls_on_demand
    (i : FilenameToBasicStat) (L : Type)
    (yield : BasicStat -> option Error -> M L bool) (names : list string) :
  quiet yield ->
  forall (l : L) (seen : list Sighting) (w : World),
    let watched :=
      snd (NamesToBasicStats i (ReaderToNames names) _ (observed yield)
             ((l, seen), w)) in
    let plain :=
      snd (NamesToBasicStats i (ReaderToNames names) L yield (l, w)) in
    exists k : nat,
      (k <= length names)%nat
      /\ snd (fst watched)
         = seen ++ map (fun j => (pulled w ++ take j names,
                                  resolved w ++ take j names)) (seq 1 k)
      /\ pulled (snd watched) = pulled w ++ take k names
      /\ resolved (snd watched) = resolved w ++ take k names
      /\ fst (fst watched) = fst plain
      /\ snd watched = snd plain.
Proof.
  intros Hquiet. unfold NamesToBasicStats.
  cbv zeta. induction names as [|n names IH]; intros l seen w.
  - exists 0%nat. cbn [ReaderToNames]. unfold ret.
    cbn [fst snd seq map take length]. rewrite !app_nil_r.
    repeat split. lia.
  - rewrite !ReaderToNames_cons, !stats_turn.
    rewrite !observed_turn. cbn [pulled resolved written].
    pose proof (Hquiet (fst (i n)) (snd (i n))
                  (l, mkWorld (pulled w ++ [n]) (resolved w ++ [n]) (written w)))
      as [Hp Hr].
    destruct (yield (fst (i n)) (snd (i n)) _) as [continue [l' w']].
    cbn [fst snd pulled resolved] in Hp, Hr. cbn [fst snd].
    destruct continue.
    + destruct (IH l' (seen ++ [(pulled w ++ [n], resolved w ++ [n])]) w')
        as (k & Hk & Hseen & Hpulled & Hresolved & Hl & Hw).
      exists (S k). cbn [length seq map]. rewrite <- seq_shift, map_map.
      rewrite Hseen, Hpulled, Hresolved, Hl, Hw, Hp, Hr.
      cbn [take]. rewrite <- !app_assoc. cbn [app].
      repeat split; try lia.
      f_equal. f_equal. apply map_ext. intros j.
      rewrite <- !app_assoc. reflexivity.
    + exists 1%nat. cbn [length seq map take fst snd].
      rewrite Hp, Hr. repeat split. lia.
Qed.

(** The writer's loop body, watched over three names of which the
    second escapes the root. *)
Lemma NamesToBasicStats_pulls_on_demand_witness :
  let names := ["a.txt"; "out"; "in"] in
  let watched :=
    snd (NamesToBasicStats (ToFilenameToBasicStat Examples.jail)
           (ReaderToNames names) _
           (observed (write_body Examples.marshal_all FileTypeToStringDefault))
           ((mkWriterLocals [] None, []), world0)) in
  let plain :=
    snd (NamesToBasicStats (ToFilenameToBasicStat Examples.jail)
           (ReaderToNames names) WriterLocals
           (write_body Examples.marshal_all FileTypeToStringDefault)
           (mkWriterLocals [] None, world0)) in
  exists k : nat,
    (k <= length names)%nat
    /\ snd (fst watched)
       = [] ++ map (fun j => (pulled world0 ++ take j names,
                              resolved world0 ++ take j names)) (seq 1 k)
    /\ pulled (snd watched) = pulled world0 ++ take k names
    /\ resolved (snd watched) = resolved world0 ++ take k names
    /\ fst (fst watched) = fst plain
    /\ snd watched = snd plain.
Proof.
  apply (NamesToBasicStats_pulls_on_demand
           (ToFilenameToBasicStat Examples.jail) WriterLocals
           (write_body Examples.marshal_all FileTypeToStringDefault)
           ["a.txt"; "out"; "in"]).
  unfold quiet. intros s [err|] [l w]; split; reflexivity.
Defined.



(** X10: [Collect] over names that all resolve returns their records,
    one per name and in the order of the names, and no error. *)
Theorem Collect_all (i : FilenameToBasicStat) (names : list string) (w : World) :
  (forall n, In n names -> snd (i n) = None) ->
  Collect (NamesToBasicStats i (ReaderToNames names)) w
  = ((map (fun n => fst (i n)) names, None),
     mkWorld (pulled w ++ names) (resolved w ++ names) (written w)).
Proof.
  intros Hall. unfold Collect.
  rewrite (collect_loop_all i names Hall). reflexivity.
Qed.

Lemma Collect_all_witness :
  Collect (NamesToBasicStats (ToFilenameToBasicStat Examples.jail)
             (ReaderToNames ["a.txt"; "in"])) world0
  = ((map (fun n => fst (ToFilenameToBasicStat Examples.jail n)) ["a.txt"; "in"],
      None),
     mkWorld ["a.txt"; "in"] ["a.txt"; "in"] []).
Proof.
  apply (Collect_all (ToFilenameToBasicStat Examples.jail) ["a.txt"; "in"] world0).
  intros n [<-|[<-|[]]]; reflexivity.
Defined.

(** X11: [Collect] gives up at the first result that carries an error:
    it returns that error with an empty slice, dropping the records
    collected so far, and pulls no further name. *)
Theorem Collect_drops_on_error (i : FilenameToBasicStat)
    (pre post : list string) (b : string) (e : Error) (w : World) :
  (forall n, In n pre -> snd (i n) = None) ->
  snd (i b) = Some e ->
  fst (Collect (NamesToBasicStats i (ReaderToNames (pre ++ b :: post))) w)
  = ([], Some e)
  /\ pulled (snd (Collect (NamesToBasicStats i (ReaderToNames (pre ++ b :: post))) w))
     = pulled w ++ pre ++ [b]
  /\ resolved (snd (Collect (NamesToBasicStats i (ReaderToNames (pre ++ b :: post))) w))
     = resolved w ++ pre ++ [b].
Proof.
  intros Hpre Hb. unfold Collect.
  rewrite (collect_loop i pre post b e Hpre Hb).
  cbn [collect_error fst snd pulled resolved]. repeat split.
Qed.

Lemma Collect_drops_on_error_witness :
  fst (Collect (NamesToBasicStats (ToFilenameToBasicStat Examples.jail)
                  (ReaderToNames (["a.txt"; "in"] ++ "nope" :: ["sub"]))) world0)
  = ([], Some NameNotFound)
  /\ pulled (snd (Collect (NamesToBasicStats (ToFilenameToBasicStat Examples.jail)
                    (ReaderToNames (["a.txt"; "in"] ++ "nope" :: ["sub"]))) world0))
     = pulled world0 ++ ["a.txt"; "in"] ++ ["nope"]
  /\ resolved (snd (Collect (NamesToBasicStats (ToFilenameToBasicStat Examples.jail)
                      (ReaderToNames (["a.txt"; "in"] ++ "nope" :: ["sub"]))) world0))
     = resolved world0 ++ ["a.txt"; "in"] ++ ["nope"].
Proof.
  apply (Collect_drops_on_error (ToFilenameToBasicStat Examples.jail)
           ["a.txt"; "in"] ["sub"] "nope" NameNotFound world0).
  - intros n [<-|[<-|[]]]; reflexivity.
  - reflexivity.
Defined.

End OnDemandProperties.

(** ** Runs of the writer *)

Section RunLemmas.

Variable json_Marshal : BasicStatJson -> option Error.
Variable c : FileTypeToString.
Variable i : FilenameToBasicStat.

(** A run over two lists of names, one after the other. *)
Lemma fail_fast_run_chunks (first second : list string) :
  fail_fast_run json_Marshal c i (first ++ second)
  = let '(taken1, lines1, e1) := fail_fast_run json_Marshal c i first in
    match e1 with
    | Some err => (taken1, lines1, Some err)
    | None =>
        let '(taken2, lines2, e2) := fail_fast_run json_Marshal c i second in
        (taken1 ++ taken2, lines1 ++ lines2, e2)
    end.
Proof.
  induction first as [|n first IH]; cbn [app fail_fast_run].
  - destruct (fail_fast_run json_Marshal c i second) as [[? ?] ?]. reflexivity.
  - destruct (snd (i n)); [reflexivity|].
    destruct (json_Marshal (ToJsonObj (fst (i n)) c)); [reflexivity|].
    rewrite IH.
    destruct (fail_fast_run json_Marshal c i first) as [[taken1 lines1] [err|]];
      [reflexivity|].
    destruct (fail_fast_run json_Marshal c i second) as [[? ?] ?]. reflexivity.
Qed.

(** The books of a run: the names taken are a front part of the input;
    without an error every name was taken and has its line; with an
    error the last name taken has none. *)
Lemma fail_fast_run_books (names : list string) :
  let '(taken, lines, e) := fail_fast_run json_Marshal c i names in
  taken `prefix_of` names
  /\ (e = None -> taken = names /\ length lines = length names)
  /\ (e <> None -> length taken = S (length lines)).
Proof.
  induction names as [|n names IH]; cbn [fail_fast_run].
  - repeat split; [apply prefix_nil|congruence].
  - destruct (snd (i n)).
    { repeat split; try discriminate.
      apply (prefix_cons n [] names), prefix_nil. }
    destruct (json_Marshal (ToJsonObj (fst (i n)) c)).
    { repeat split; try discriminate.
      apply (prefix_cons n [] names), prefix_nil. }
    destruct (fail_fast_run json_Marshal c i names) as [[taken lines] e].
    destruct IH as (Hpre & Hnil & Herr).
    split; [apply prefix_cons; assumption|]. split.
    + intros He. destruct (Hnil He) as [-> Hlen]. cbn [length].
      split; congruence.
    + intros He. cbn [length]. rewrite (Herr He). reflexivity.
Qed.

End RunLemmas.

Section RootRunLemmas.

(** For a root, the paths of the lines of a run are a front part of the
    names. *)
Lemma fail_fast_run_paths (json_Marshal : BasicStatJson -> option Error)
    (c : FileTypeToString) (r : Root) (names : list string) :
  map json_Path (snd (fst (fail_fast_run json_Marshal c (NameToBasicStat r) names)))
    `prefix_of` names.
Proof.
  induction names as [|n names IH]; cbn [fail_fast_run].
  - apply prefix_nil.
  - destruct (snd (NameToBasicStat r n)) eqn:He; [apply prefix_nil|].
    destruct (json_Marshal (ToJsonObj (fst (NameToBasicStat r n)) c));
      [apply prefix_nil|].
    destruct (fail_fast_run json_Marshal c (NameToBasicStat r) names)
      as [[taken lines] e].
    cbn [fst snd map ToJsonObj json_Path] in *.
    rewrite (NameToBasicStat_nil_Path r n He).
    apply prefix_cons. assumption.
Qed.

End RootRunLemmas.

Section RunProperties.

(** X12: when every name resolves and every object marshals, the run
    returns no error and the writer has received exactly one line per
    name, in the order of the names, after what it held before. *)
Theorem BasicStatsToWriter_all
    (json_Marshal : BasicStatJson -> option Error) (c : FileTypeToString)
    (i : FilenameToBasicStat) (names : list string) (w : World) :
  (forall n, In n names ->
     snd (i n) = None /\ json_Marshal (ToJsonObj (fst (i n)) c) = None) ->
  BasicStatsToWriter json_Marshal c (NamesToBasicStats i (ReaderToNames names)) w
  = (None,
     {| pulled := pulled w ++ names;
        resolved := resolved w ++ names;
        written := written w ++ map (fun n => ToJsonObj (fst (i n)) c) names |}).
Proof.
  intros Hall.
  rewrite BasicStatsToWriter_fail_fast.
  rewrite <- (app_nil_r names) at 1.
  rewrite fail_fast_run_app by assumption.
  cbn [fail_fast_run]. rewrite !app_nil_r. reflexivity.
Qed.

Lemma BasicStatsToWriter_all_witness :
  BasicStatsToWriter Examples.marshal_all FileTypeToStringDefault
    (NamesToBasicStats (ToFilenameToBasicStat Examples.jail)
       (ReaderToNames ["sub/b.txt"; "sub"])) world0
  = (None,
     {| pulled := ["sub/b.txt"; "sub"];
        resolved := ["sub/b.txt"; "sub"];
        written :=
          map (fun n =>
                 ToJsonObj (fst (ToFilenameToBasicStat Examples.jail n))
                   FileTypeToStringDefault) ["sub/b.txt"; "sub"] |}).
Proof.
  apply (BasicStatsToWriter_all Examples.marshal_all FileTypeToStringDefault
           (ToFilenameToBasicStat Examples.jail) ["sub/b.txt"; "sub"] world0).
  intros n [<-|[<-|[]]]; split; reflexivity.
Defined.

(** X13: a name that resolves but whose object does not marshal ends
    the run with the encoder's error: the lines of the names before it
    are in the output, it has no line itself, and no later name is
    pulled. *)
Theorem BasicStatsToWriter_encode_error
    (json_Marshal : BasicStatJson -> option Error) (c : FileTypeToString)
    (i : FilenameToBasicStat) (pre post : list string) (b : string)
    (e : Error) (w : World) :
  (forall n, In n pre ->
     snd (i n) = None /\ json_Marshal (ToJsonObj (fst (i n)) c) = None) ->
  snd (i b) = None ->
  json_Marshal (ToJsonObj (fst (i b)) c) = Some e ->
  BasicStatsToWriter json_Marshal c
    (NamesToBasicStats i (ReaderToNames (pre ++ b :: post))) w
  = (Some e,
     {| pulled := pulled w ++ pre ++ [b];
        resolved := resolved w ++ pre ++ [b];
        written := written w ++ map (fun n => ToJsonObj (fst (i n)) c) pre |}).
Proof.
  intros Hpre Hb He.
  rewrite BasicStatsToWriter_fail_fast, fail_fast_run_app by assumption.
  cbn [fail_fast_run]. rewrite Hb, He, app_nil_r. reflexivity.
Qed.

(** [late.txt] was modified in the year 12000. *)
Lemma BasicStatsToWriter_encode_error_witness :
  BasicStatsToWriter MoreExamples.marshal_years FileTypeToStringDefault
    (NamesToBasicStats (ToFilenameToBasicStat MoreExamples.archive)
       (ReaderToNames (["old.txt"] ++ "late.txt" :: ["new.txt"]))) world0
  = (Some EncodeFailure,
     {| pulled := ["old.txt"; "late.txt"];
        resolved := ["old.txt"; "late.txt"];
        written :=
          map (fun n =>
                 ToJsonObj (fst (ToFilenameToBasicStat MoreExamples.archive n))
                   FileTypeToStringDefault) ["old.txt"] |}).
Proof.
  apply (BasicStatsToWriter_encode_error MoreExamples.marshal_years
           FileTypeToStringDefault (ToFilenameToBasicStat MoreExamples.archive)
           ["old.txt"] ["new.txt"] "late.txt" EncodeFailure world0).
  - intros n [<-|[]]; split; reflexivity.
  - reflexivity.
  - reflexivity.
Defined.

(** X14: the books of any run.  The output only grows: what the writer
    held stays in front.  The names pulled are the names resolved, a
    front part of the input.  A run without error has taken every name
    and written one line for each; a run with an error has written one
    line for each name taken but the last. *)
Theorem BasicStatsToWriter_books
    (json_Marshal : BasicStatJson -> option Error) (c : FileTypeToString)
    (i : FilenameToBasicStat) (names : list string) (w : World) :
  let run :=
    BasicStatsToWriter json_Marshal c
      (NamesToBasicStats i (ReaderToNames names)) w in
  exists (taken : list string) (lines : list BasicStatJson),
    taken `prefix_of` names
    /\ pulled (snd run) = pulled w ++ taken
    /\ resolved (snd run) = resolved w ++ taken
    /\ written (snd run) = written w ++ lines
    /\ (fst run = None -> taken = names /\ length lines = length names)
    /\ (fst run <> None -> length taken = S (length lines)).
Proof.
  intros run. subst run. rewrite BasicStatsToWriter_fail_fast.
  pose proof (fail_fast_run_books json_Marshal c i names) as Hbooks.
  destruct (fail_fast_run json_Marshal c i names) as [[taken lines] e].
  exists taken, lines. cbn [fst snd pulled resolved written].
  destruct Hbooks as (Hpre & Hnil & Herr). repeat split; tauto.
Qed.

(** X15: a run over two lists of names one after the other is the run
    over the first list followed, when that one returned no error, by
    the run over the second from the world the first left; when the
    first returned an error, the second list is not touched. *)
Theorem BasicStatsToWriter_chunks
    (json_Marshal : BasicStatJson -> option Error) (c : FileTypeToString)
    (i : FilenameToBasicStat) (first second : list string) (w : World) :
  let run1 :=
    BasicStatsToWriter json_Marshal c
      (NamesToBasicStats i (ReaderToNames first)) w in
  BasicStatsToWriter json_Marshal c
    (NamesToBasicStats i (ReaderToNames (first ++ second))) w
  = match fst run1 with
    | Some err => run1
    | None =>
        BasicStatsToWriter json_Marshal c
          (NamesToBasicStats i (ReaderToNames second)) (snd run1)
    end.
Proof.
  intros run1. subst run1.
  rewrite !BasicStatsToWriter_fail_fast, fail_fast_run_chunks.
  destruct (fail_fast_run json_Marshal c i first) as [[taken1 lines1] [err|]];
    cbn [fst snd]; [reflexivity|].
  destruct (fail_fast_run json_Marshal c i second) as [[taken2 lines2] e2].
  cbn [pulled resolved written]. rewrite !app_assoc. reflexivity.
Qed.

(** X16: for a root, the paths of the lines a run writes are, in order,
    a front part of the names it was given: no line without its name,
    none out of order, none twice for one occurrence of a name. *)
Theorem Root_run_paths
    (json_Marshal : BasicStatJson -> option Error) (r : Root)
    (names : list string) (w : World) :
  exists lines : list BasicStatJson,
    written (snd (Root_NamesToBasicStatsToStdout json_Marshal r
                    (ReaderToNames names) w))
    = written w ++ lines
    /\ map json_Path lines `prefix_of` names.
Proof.
  unfold Root_NamesToBasicStatsToStdout, NamesToBasicStatsToStdout,
    BasicStatsToStdoutDefault, BasicStatsToStdout, ToFilenameToBasicStat.
  rewrite BasicStatsToWriter_fail_fast.
  pose proof (fail_fast_run_paths json_Marshal FileTypeToStringDefault r names)
    as Hpaths.
  destruct (fail_fast_run json_Marshal FileTypeToStringDefault
              (NameToBasicStat r) names) as [[taken lines] e].
  exists lines. split; [reflexivity|exact Hpaths].
Qed.

End RunProperties.

(** ** The vocabulary of the output *)

Section Vocabulary.

Lemma ToFileType_in_enumerated (m : Z) :
  In (ToFileType (mkFileMode m)) enumerated.
Proof.
  rewrite ToFileType_precedence.
  destruct (first_match_codes precedence m) as [H|H].
  - rewrite H. left. reflexivity.
  - simpl in H. unfold enumerated. simpl. tauto.
Qed.

(** X18: every line a root's run writes names one of the names given
    as its path and carries one of the eight labels of the default
    table as its file type. *)
Theorem Root_run_vocabulary
    (json_Marshal : BasicStatJson -> option Error) (r : Root)
    (names : list string) (w : World) :
  exists lines : list BasicStatJson,
    written (snd (Root_NamesToBasicStatsToStdout json_Marshal r
                    (ReaderToNames names) w))
    = written w ++ lines
    /\ forall j, In j lines ->
         In (json_Path j) names
         /\ In (json_FileType j)
              [ "UNKNOWN FILE TYPE"; "block special"; "character special";
                "directory"; "regular file"; "symbolic link"; "FIFO";
                "socket" ].
Proof.
  unfold Root_NamesToBasicStatsToStdout, NamesToBasicStatsToStdout,
    BasicStatsToStdoutDefault, BasicStatsToStdout, ToFilenameToBasicStat.
  rewrite BasicStatsToWriter_fail_fast.
  pose proof (fail_fast_run_lines json_Marshal FileTypeToStringDefault
                (NameToBasicStat r) names) as Hlines.
  destruct (fail_fast_run json_Marshal FileTypeToStringDefault
              (NameToBasicStat r) names) as [[taken lines] e].
  cbn [fst snd written] in *. exists lines. split; [reflexivity|].
  intros j Hj. destruct (Hlines j Hj) as (n & Hn & Hnil & ->).
  cbn [ToJsonObj json_Path json_FileType].
  rewrite (NameToBasicStat_nil_Path r n Hnil). split; [assumption|].
  unfold NameToBasicStat in *.
  destruct (NameToInfo r n) as [fi|err]; [|discriminate].
  cbn [fst WithFullPath ToBasicStat fileType].
  pose proof (ToFileType_in_enumerated (info_Mode fi)) as Hcode.
  unfold enumerated in Hcode. simpl in Hcode.
  repeat (destruct Hcode as [<-|Hcode]; [simpl; tauto|]).
  destruct Hcode.
Qed.

End Vocabulary.
